(** * aws-gate: the SSH session of [aws_gate/ssh.py]

    A shallow embedding of [SshSession] (the builder of the local ssh
    command line) and of the [ssh] entry point (three nested scoped
    resources around one spawned process), with the properties the
    specification states about them. *)

From Stdlib Require Import String Ascii List ZArith Bool Lia.
From Stdlib Require Import DecimalString.
Import ListNotations.
Local Open Scope list_scope.
Local Open Scope string_scope.
Set Warnings "-register-all".

(** ** Python values and text *)

(** Python [str] is modelled by [string]; a character is a code point
    below 256. *)

Definition dquote : ascii := "034"%char.
Definition squote : ascii := "039"%char.
Definition backslash : ascii := "092"%char.

Definition str1 (c : ascii) : string := String c EmptyString.

Fixpoint string_forall (p : ascii -> bool) (s : string) : bool :=
  match s with
  | EmptyString => true
  | String c r => p c && string_forall p r
  end.

(** [s.replace(c, by)] for a one-character pattern [c]. *)
Fixpoint str_replace_char (c : ascii) (by_ : string) (s : string) : string :=
  match s with
  | EmptyString => EmptyString
  | String x r =>
      if Ascii.eqb x c then by_ ++ str_replace_char c by_ r
      else String x (str_replace_char c by_ r)
  end.

(** [str(n)] for a Python int. *)
Definition py_str_int (n : Z) : string := NilZero.string_of_int (Z.to_int n).

(** [str(x)] / [{}] in [str.format] for a value that is a [str] or [None]. *)
Definition py_str_opt (x : option string) : string :=
  match x with
  | Some s => s
  | None => "None"
  end.

(** The objects [json.dumps] is applied to: [None], booleans, ints, strings,
    lists, and dicts with string keys (a dict keeps insertion order). *)
Inductive pyvalue : Type :=
  | PNone
  | PBool (b : bool)
  | PInt (n : Z)
  | PStr (s : string)
  | PList (items : list pyvalue)
  | PDict (items : list (string * pyvalue)).

(** ** [shlex.quote] *)

Definition in_range (lo hi : nat) (c : ascii) : bool :=
  (lo <=? nat_of_ascii c)%nat && (nat_of_ascii c <=? hi)%nat.

(** [\w] under [re.ASCII]: letters, digits and the underscore. *)
Definition is_word_char (c : ascii) : bool :=
  in_range 48 57 c || in_range 65 90 c || in_range 97 122 c
  || Ascii.eqb c "_"%char.

Fixpoint mem_ascii (c : ascii) (s : string) : bool :=
  match s with
  | EmptyString => false
  | String x r => Ascii.eqb c x || mem_ascii c r
  end.

(** The complement of [_find_unsafe]'s class [[^\w@%+=:,./-]]. *)
Definition shlex_safe (c : ascii) : bool :=
  is_word_char c || mem_ascii c "@%+=:,./-".

(** The text a single quote is replaced with: quote, double-quoted quote,
    quote. *)
Definition squote_escape : string :=
  String squote (String dquote (String squote (String dquote (str1 squote)))).

Definition shlex_quote (s : string) : string :=
  match s with
  | EmptyString => String squote (str1 squote)
  | _ =>
      if string_forall shlex_safe s then s
      else str1 squote ++ str_replace_char squote squote_escape s ++ str1 squote
  end.

(** ** Shell word splitting

    The reference the quoting is measured against: how a POSIX shell cuts a
    command line into words (token recognition and quote removal).  A line
    on which the shell would do anything more, an expansion, a glob, an
    operator, a comment, or which ends inside a quote, is refused with
    [None]. *)

Inductive sh_mode : Type := Unquoted | InSingle | InDouble.

Definition sh_blank (c : ascii) : bool :=
  Ascii.eqb c " "%char || Ascii.eqb c "009"%char || Ascii.eqb c "010"%char.

(** Characters that mean something to the shell when unquoted. *)
Definition sh_hazard (c : ascii) : bool :=
  mem_ascii c "|&;<>()$`*?[]#~!{}^".

(** Characters a backslash escapes inside double quotes. *)
Definition sh_dq_escapable (c : ascii) : bool :=
  Ascii.eqb c "$"%char || Ascii.eqb c "`"%char || Ascii.eqb c dquote
  || Ascii.eqb c backslash.

Definition word_of (cur : option string) : string :=
  match cur with
  | Some w => w
  | None => EmptyString
  end.

Definition push (cur : option string) (c : ascii) : option string :=
  Some (word_of cur ++ str1 c).

Definition flush (cur : option string) (rest : option (list string))
  : option (list string) :=
  match cur with
  | Some w => option_map (cons w) rest
  | None => rest
  end.

Fixpoint sh_scan (m : sh_mode) (cur : option string) (s : string)
  : option (list string) :=
  match s with
  | EmptyString =>
      match m with
      | Unquoted => flush cur (Some [])
      | _ => None
      end
  | String c r =>
      match m with
      | InSingle =>
          if Ascii.eqb c squote then sh_scan Unquoted cur r
          else sh_scan InSingle (push cur c) r
      | InDouble =>
          if Ascii.eqb c dquote then sh_scan Unquoted cur r
          else if Ascii.eqb c backslash then
            match r with
            | EmptyString => None
            | String d r' =>
                if sh_dq_escapable d then sh_scan InDouble (push cur d) r'
                else if Ascii.eqb d "010"%char then sh_scan InDouble cur r'
                else sh_scan InDouble (push (push cur c) d) r'
            end
          else if Ascii.eqb c "$"%char || Ascii.eqb c "`"%char then None
          else sh_scan InDouble (push cur c) r
      | Unquoted =>
          if sh_blank c then flush cur (sh_scan Unquoted None r)
          else if Ascii.eqb c squote then
            sh_scan InSingle (Some (word_of cur)) r
          else if Ascii.eqb c dquote then
            sh_scan InDouble (Some (word_of cur)) r
          else if Ascii.eqb c backslash then
            match r with
            | EmptyString => None
            | String d r' =>
                if Ascii.eqb d "010"%char then sh_scan Unquoted cur r'
                else sh_scan Unquoted (push cur d) r'
            end
          else if sh_hazard c then None
          else sh_scan Unquoted (push cur c) r
      end
  end.

Definition sh_words (line : string) : option (list string) :=
  sh_scan Unquoted None line.

(** ** [json.dumps]

    Default arguments: [ensure_ascii=True], separators [", "] and [": "]. *)

Definition hex_digit (n : nat) : ascii :=
  match n with
  | 0 => "0" | 1 => "1" | 2 => "2" | 3 => "3" | 4 => "4" | 5 => "5"
  | 6 => "6" | 7 => "7" | 8 => "8" | 9 => "9" | 10 => "a" | 11 => "b"
  | 12 => "c" | 13 => "d" | 14 => "e" | _ => "f"
  end%char.

(** One character of a JSON string: the backslash and the double quote are
    escaped, the five short escapes are used, and everything else outside
    space..tilde becomes a four-digit [\u] escape. *)
Definition json_escape_char (c : ascii) : string :=
  let n := nat_of_ascii c in
  if Ascii.eqb c dquote then String backslash (str1 dquote)
  else if Ascii.eqb c backslash then String backslash (str1 backslash)
  else if Ascii.eqb c "008"%char then String backslash "b"
  else if Ascii.eqb c "012"%char then String backslash "f"
  else if Ascii.eqb c "010"%char then String backslash "n"
  else if Ascii.eqb c "013"%char then String backslash "r"
  else if Ascii.eqb c "009"%char then String backslash "t"
  else if in_range 32 126 c then str1 c
  else String backslash
         ("u00" ++ String (hex_digit (n / 16)) (str1 (hex_digit (n mod 16)))).

Fixpoint json_escape (s : string) : string :=
  match s with
  | EmptyString => EmptyString
  | String c r => json_escape_char c ++ json_escape r
  end.

Definition json_string (s : string) : string :=
  str1 dquote ++ json_escape s ++ str1 dquote.

Fixpoint json_dumps (v : pyvalue) : string :=
  match v with
  | PNone => "null"
  | PBool true => "true"
  | PBool false => "false"
  | PInt n => py_str_int n
  | PStr s => json_string s
  | PList items =>
      "[" ++
      (fix elems (l : list pyvalue) : string :=
         match l with
         | [] => EmptyString
         | x :: r =>
             match r with
             | [] => json_dumps x
             | _ => json_dumps x ++ ", " ++ elems r
             end
         end) items
      ++ "]"
  | PDict items =>
      "{" ++
      (fix members (l : list (string * pyvalue)) : string :=
         match l with
         | [] => EmptyString
         | (k, x) :: r =>
             match r with
             | [] => json_string k ++ ": " ++ json_dumps x
             | _ => json_string k ++ ": " ++ json_dumps x ++ ", " ++ members r
             end
         end) items
      ++ "}"
  end.

(** ** Exceptions and results *)

Record exn : Type := mkExn { exn_class : string; exn_msg : string }.

Definition ValueError (msg : string) : exn := mkExn "ValueError" msg.
Definition AttributeError (msg : string) : exn := mkExn "AttributeError" msg.
Definition KeyError (msg : string) : exn := mkExn "KeyError" msg.
Definition IndexError (msg : string) : exn := mkExn "IndexError" msg.

Inductive result (A : Type) : Type :=
  | Ok (a : A)
  | Raise (e : exn).
Arguments Ok {A} a.
Arguments Raise {A} e.

(** ** Collaborating objects *)

(** A boto3 client; [ssh.py] reads only [meta.endpoint_url] of it. *)
Record aws_client : Type := mkClient {
  client_service : string;
  meta_endpoint_url : string
}.

Record aws_resource : Type := mkResource { resource_service : string }.

(** The values of [aws_gate.constants] that [ssh.py] reads. *)
Record Constants : Type := mkConstants {
  DEBUG : bool;
  PLUGIN_INSTALL_PATH : string;
  DEFAULT_GATE_DIR : string
}.

(** ** [class SshSession] *)

Record SshSession : Type := mkSshSession {
  _instance_id : string;
  _region_name : string;
  _profile_name : string;
  _ssm : option aws_client;
  _port : Z;
  _user : string;
  _command : option (list string);
  _key_path : string;
  _agent_mode : bool;
  _ssh_cmd : option (list string);
  _session_parameters : pyvalue;
  (** not assigned by [__init__]: [None], the default of the base class,
      until entering the session stores the session-start response *)
  _response : pyvalue
}.

(** ** Effects: the trace of a call

    [ssh] talks to collaborators that live in other modules.  What they
    answer is taken from an environment; what this module does with them is
    recorded: every external call in the order it is made, and for each
    scoped resource when its [__enter__] has returned and when its
    [__exit__] is invoked. *)

Inductive resource : Type := RSshKey | RSshKeyUploader | RSshSession.

Inductive call : Type :=
  | FetchInstanceDetails (instance_name : string)
      (profile_name : option string) (region_name : string)
  | GetAwsClient (service region : string) (profile : option string)
  | GetAwsResource (service region : string) (profile : option string)
  | QueryInstance (name : string)
  | GetInstanceDetails (instance_id : string)
  | SshKeyEnter (key_type : string) (key_size : Z) (key_path : string)
      (agent_mode : bool)
  | SshKeyUploaderEnter (instance_id az user : string)
  | SshSessionEnter (session : SshSession)
  | Execute (cmd : string) (args : list string).

Inductive event : Type :=
  | Called (c : call)
  | Acquired (r : resource)
  | Released (r : resource).

Definition M (A : Type) : Type := (result A * list event)%type.

Definition ret {A} (a : A) : M A := (Ok a, []).
Definition raise {A} (e : exn) : M A := (Raise e, []).

Definition bind {A B} (m : M A) (k : A -> M B) : M B :=
  match m with
  | (Ok a, t) => let '(r, t') := k a in (r, (t ++ t')%list)
  | (Raise e, t) => (Raise e, t)
  end.

Notation "x <- m ;; k" := (bind m (fun x => k))
  (at level 61, m at next level, right associativity).
Notation "' pat <- m ;; k" := (bind m (fun x => match x with pat => k end))
  (at level 61, pat pattern, m at next level, right associativity).

(** An external call: it is recorded, its outcome comes from outside. *)
Definition ext {A} (c : call) (outcome : result A) : M A :=
  (outcome, [Called c]).

(** [SshSession.__init__]; [profile_name] may be [None].  The constructor
    only assigns fields. *)
Definition SshSession_init (instance_id key_path : string)
    (ssm : option aws_client) (region_name : string)
    (profile_name : option string) (port : Z) (user : string)
    (command : option (list string)) (agent_mode : bool) : M SshSession :=
  ret
  {| _instance_id := instance_id;
     _region_name := region_name;
     _profile_name :=
       match profile_name with
       | Some p => p
       | None => EmptyString
       end;
     _ssm := ssm;
     _port := port;
     _user := user;
     _command := command;
     _key_path := key_path;
     _agent_mode := agent_mode;
     _ssh_cmd := None;
     _session_parameters :=
       PDict [ ("Target", PStr instance_id);
               ("DocumentName", PStr "AWS-StartSSHSession");
               ("Parameters",
                PDict [("portNumber", PList [PStr (py_str_int port)])]) ];
     _response := PNone |}.

(** Truth value of [self._command]: [None] and the empty list are false. *)
Definition command_given (command : option (list string)) : bool :=
  match command with
  | Some (_ :: _) => true
  | _ => false
  end.

Section Builder.

Variable K : Constants.

Definition proxy_command_args (self : SshSession) (response : pyvalue)
    (ssm : aws_client) : list string :=
  [ PLUGIN_INSTALL_PATH K;
    json_dumps response;
    _region_name self;
    "StartSession";
    _profile_name self;
    json_dumps (_session_parameters self);
    meta_endpoint_url ssm ].

Definition proxy_command (self : SshSession) (response : pyvalue)
    (ssm : aws_client) : string :=
  String.concat " " (map shlex_quote (proxy_command_args self response ssm)).

Definition ssh_options (self : SshSession) (response : pyvalue)
    (ssm : aws_client) : list string :=
  [ "IdentitiesOnly=" ++ (if _agent_mode self then "no" else "yes");
    "IdentityFile=" ++ _key_path self;
    "UserKnownHostsFile=/dev/null";
    "StrictHostKeyChecking=no";
    "ProxyCommand=" ++ proxy_command self response ssm ].

(** [SshSession._build_ssh_command].  Reading [self._ssm.meta] when no
    client was given raises [AttributeError]. *)
Definition _build_ssh_command (self : SshSession) : result (list string) :=
  let cmd :=
    ["ssh"; "-l"; _user self; "-p"; py_str_int (_port self);
     "-F"; "/dev/null"] in
  let cmd := (cmd ++ [if DEBUG K then "-vv" else "-q"])%list in
  match _ssm self with
  | None =>
      Raise (AttributeError "'NoneType' object has no attribute 'meta'")
  | Some ssm =>
      let cmd :=
        fold_left (fun cmd ssh_option => ((cmd ++ ["-o"]) ++ [ssh_option])%list)
                  (ssh_options self (_response self) ssm) cmd in
      let cmd := (cmd ++ [_instance_id self])%list in
      Ok (if command_given (_command self)
          then ((cmd ++ ["--"]) ++ match _command self with
                                   | Some c => c
                                   | None => []
                                   end)%list
          else cmd)
  end.

End Builder.

(** Python's [with mgr as x: body].  When [__enter__] raises, nothing is
    released.  Otherwise [__exit__] runs once, after the body, whether the
    body returned or raised; an error of the body is re-raised unless
    [__exit__] returns a true value, and an error of [__exit__] itself
    replaces it. *)
Definition with_ {A} (r : resource) (enter : M A)
    (exit_ : A -> option exn -> result bool) (body : A -> M unit) : M unit :=
  match enter with
  | (Raise e, t) => (Raise e, t)
  | (Ok a, t) =>
      let '(rb, tb) := body a in
      let pending :=
        match rb with
        | Ok _ => None
        | Raise e => Some e
        end in
      let outcome :=
        match exit_ a pending with
        | Raise e' => Raise e'
        | Ok suppress =>
            match pending with
            | None => Ok tt
            | Some e => if suppress then Ok tt else Raise e
            end
        end in
      (outcome, (t ++ [Acquired r] ++ tb ++ [Released r])%list)
  end.

(** [d[key]] on a dict with string keys and values. *)
Fixpoint dict_get (d : list (string * string)) (key : string) : result string :=
  match d with
  | [] => Raise (KeyError (str1 squote ++ key ++ str1 squote))
  | (k, v) :: r => if String.eqb k key then Ok v else dict_get r key
  end.

(** What the modules that are not part of [ssh.py] answer.  [Config] is the
    configuration object, [Key] the [SshKey] object.  The constructor of a
    scoped resource and its [__enter__] are one outcome: an error in either
    leaves nothing acquired. *)
Record Env (Config Key : Type) : Type := mkEnv {
  fetch_instance_details_from_config :
    Config -> string -> option string -> string ->
    result (string * option string * string);
  get_aws_client : string -> string -> option string -> result aws_client;
  get_aws_resource : string -> string -> option string -> result aws_resource;
  query_instance : string -> aws_resource -> result (option string);
  get_instance_details :
    string -> aws_resource -> result (list (string * string));
  SshKey_enter : string -> Z -> string -> bool -> result Key;
  SshKey_exit : Key -> option exn -> result bool;
  SshKeyUploader_enter :
    string -> string -> string -> Key -> aws_client -> result unit;
  SshKeyUploader_exit : option exn -> result bool;
  BaseSession_enter : SshSession -> result SshSession;
  BaseSession_exit : SshSession -> option exn -> result bool;
  execute : string -> list string -> result pyvalue
}.
Arguments fetch_instance_details_from_config {Config Key} _.
Arguments get_aws_client {Config Key} _.
Arguments get_aws_resource {Config Key} _.
Arguments query_instance {Config Key} _.
Arguments get_instance_details {Config Key} _.
Arguments SshKey_enter {Config Key} _.
Arguments SshKey_exit {Config Key} _.
Arguments SshKeyUploader_enter {Config Key} _.
Arguments SshKeyUploader_exit {Config Key} _.
Arguments BaseSession_enter {Config Key} _.
Arguments BaseSession_exit {Config Key} _.
Arguments execute {Config Key} _.

(** The key path of [ssh]: ["{}/{}.{}.{}".format(DEFAULT_GATE_DIR,
    instance_id, region_name, profile_name)]. *)
Definition ssh_key_path (K : Constants) (instance_id region_name : string)
    (profile_name : option string) : string :=
  DEFAULT_GATE_DIR K ++ "/" ++ instance_id ++ "." ++ region_name ++ "."
  ++ py_str_opt profile_name.

Section Orchestration.

Context {Config Key : Type}.
Variable K : Constants.
Variable env : Env Config Key.

(** [SshSession.open]: the command is built and stored on the object, then
    run; the value of [execute] is the value of the call. *)
Definition SshSession_open (self : SshSession) : M (SshSession * pyvalue) :=
  match _build_ssh_command K self with
  | Raise e => raise e
  | Ok cmd =>
      let self' :=
        {| _instance_id := _instance_id self;
           _region_name := _region_name self;
           _profile_name := _profile_name self;
           _ssm := _ssm self;
           _port := _port self;
           _user := _user self;
           _command := _command self;
           _key_path := _key_path self;
           _agent_mode := _agent_mode self;
           _ssh_cmd := Some cmd;
           _session_parameters := _session_parameters self;
           _response := _response self |} in
      match cmd with
      | [] => raise (IndexError "list index out of range")
      | c :: args =>
          v <- ext (Execute c args) (execute env c args) ;;
          ret (self', v)
      end
  end.

(** The three nested [with] blocks of [ssh]. *)
Definition ssh_scopes (instance_id az user : string) (port : Z)
    (key_type : string) (key_size : Z) (key_path : string)
    (profile : option string) (region : string) (ssm ec2_ic : aws_client)
    (command : option (list string)) (agent_mode : bool) : M unit :=
  with_ RSshKey
    (ext (SshKeyEnter key_type key_size key_path agent_mode)
         (SshKey_enter env key_type key_size key_path agent_mode))
    (SshKey_exit env)
    (fun ssh_key =>
       with_ RSshKeyUploader
         (ext (SshKeyUploaderEnter instance_id az user)
              (SshKeyUploader_enter env instance_id az user ssh_key ec2_ic))
         (fun _ => SshKeyUploader_exit env)
         (fun _ =>
            session <-
              SshSession_init instance_id key_path (Some ssm) region profile
                              port user command agent_mode ;;
            with_ RSshSession
              (ext (SshSessionEnter session) (BaseSession_enter env session))
              (BaseSession_exit env)
              (fun ssh_session =>
                 _ <- SshSession_open ssh_session ;;
                 ret tt))).

(** The body of [ssh].  The four decorators, which are not part of this
    file, run first and turn away a call whose plugin, profile or region
    fails their checks: the body runs on the calls they let through.  The
    [logger.info] line leaves no trace.  The function has no [return]
    statement: a call that ends normally yields [None]. *)
Definition ssh (config : Config) (instance_name user : string) (port : Z)
    (key_type : string) (key_size : Z) (profile_name : option string)
    (region_name : string) (command : option (list string))
    (agent_mode : bool) : M pyvalue :=
  '(instance, profile, region) <-
    ext (FetchInstanceDetails instance_name profile_name region_name)
        (fetch_instance_details_from_config env config instance_name
           profile_name region_name) ;;
  ssm <- ext (GetAwsClient "ssm" region profile)
             (get_aws_client env "ssm" region profile) ;;
  ec2 <- ext (GetAwsResource "ec2" region profile)
             (get_aws_resource env "ec2" region profile) ;;
  ec2_ic <- ext (GetAwsClient "ec2-instance-connect" region profile)
                (get_aws_client env "ec2-instance-connect" region profile) ;;
  found <- ext (QueryInstance instance) (query_instance env instance ec2) ;;
  match found with
  | None =>
      raise (ValueError ("No instance could be found for name: " ++ instance))
  | Some instance_id =>
      details <- ext (GetInstanceDetails instance_id)
                     (get_instance_details env instance_id ec2) ;;
      az <- (dict_get details "availability_zone", []) ;;
      let key_path := ssh_key_path K instance_id region_name profile_name in
      _ <- ssh_scopes instance_id az user port key_type key_size key_path
             profile region ssm ec2_ic command agent_mode ;;
      ret PNone
  end.

End Orchestration.

(** ** Reading a trace and a command line *)


(** The acquisitions and releases of a trace, in the order they happened. *)
Fixpoint lifecycle (t : list event) : list event :=
  match t with
  | [] => []
  | Called _ :: t' => lifecycle t'
  | e :: t' => e :: lifecycle t'
  end.



(** The order in which [ssh] acquires its scoped resources. *)
Definition acquisition_order : list resource :=
  [RSshKey; RSshKeyUploader; RSshSession].

(** True of the calls that generate key material, reach the trust broker,
    start a session or spawn a process. *)
Definition side_effecting (e : event) : bool :=
  match e with
  | Called (SshKeyEnter _ _ _ _) => true
  | Called (SshKeyUploaderEnter _ _ _) => true
  | Called (SshSessionEnter _) => true
  | Called (Execute _ _) => true
  | Acquired _ => true
  | Released _ => true
  | _ => false
  end.

Fixpoint strip_prefix (p s : string) : option string :=
  match p with
  | EmptyString => Some s
  | String a p' =>
      match s with
      | EmptyString => None
      | String b s' => if Ascii.eqb a b then strip_prefix p' s' else None
      end
  end.

(** The value of the first [-o key=value] pair of an argument list. *)
Fixpoint ssh_option_value (key : string) (argv : list string) : option string :=
  match argv with
  | [] => None
  | a :: rest =>
      match rest with
      | [] => None
      | b :: _ =>
          if String.eqb a "-o" then
            match strip_prefix (key ++ "=") b with
            | Some v => Some v
            | None => ssh_option_value key rest
            end
          else ssh_option_value key rest
      end
  end.

(** The paths at which a run asked for key material, in order. *)
Fixpoint key_paths (t : list event) : list string :=
  match t with
  | [] => []
  | Called (SshKeyEnter _ _ key_path _) :: t' => key_path :: key_paths t'
  | _ :: t' => key_paths t'
  end.

(** The sessions a run asked to enter, in order. *)
Fixpoint sessions_entered (t : list event) : list SshSession :=
  match t with
  | [] => []
  | Called (SshSessionEnter session) :: t' => session :: sessions_entered t'
  | _ :: t' => sessions_entered t'
  end.

(** The processes a run spawned: command and arguments, in order. *)
Fixpoint spawned (t : list event) : list (string * list string) :=
  match t with
  | [] => []
  | Called (Execute cmd args) :: t' => (cmd, args) :: spawned t'
  | _ :: t' => spawned t'
  end.

(** The session after [self._ssh_cmd = cmd]. *)
Definition with_ssh_cmd (self : SshSession) (cmd : list string) : SshSession :=
  {| _instance_id := _instance_id self;
     _region_name := _region_name self;
     _profile_name := _profile_name self;
     _ssm := _ssm self;
     _port := _port self;
     _user := _user self;
     _command := _command self;
     _key_path := _key_path self;
     _agent_mode := _agent_mode self;
     _ssh_cmd := Some cmd;
     _session_parameters := _session_parameters self;
     _response := _response self |}.

(** Characters [json.dumps] writes as they are inside a string. *)
Definition json_plain (c : ascii) : bool :=
  in_range 32 126 c && negb (Ascii.eqb c dquote)
  && negb (Ascii.eqb c backslash).

(** A text between double quotes. *)
Definition in_dquotes (s : string) : string :=
  String dquote (s ++ str1 dquote).

(** ** Sample collaborators

    Concrete answers of the other modules, used to run [ssh] on examples. *)

Definition sample_constants : Constants :=
  mkConstants false "/usr/local/bin/session-manager-plugin" "/home/op/.aws-gate".

Definition sample_response : pyvalue :=
  PDict [ ("SessionId", PStr "op-0a1b2c3d");
          ("TokenValue", PStr "AAEAAbc+/9==");
          ("StreamUrl", PStr "wss://ssmmessages.us-east-1.amazonaws.com/v1/data-channel/op-0a1b2c3d") ].

(** Entering a session stores the session-start response on it. *)
Definition store_response (s : SshSession) : SshSession :=
  {| _instance_id := _instance_id s;
     _region_name := _region_name s;
     _profile_name := _profile_name s;
     _ssm := _ssm s;
     _port := _port s;
     _user := _user s;
     _command := _command s;
     _key_path := _key_path s;
     _agent_mode := _agent_mode s;
     _ssh_cmd := _ssh_cmd s;
     _session_parameters := _session_parameters s;
     _response := sample_response |}.

Definition outcome_of (ok : bool) (class : string) : result unit :=
  if ok then Ok tt else Raise (mkExn class "rejected").

(** Collaborators that follow a script: how the name is resolved, whether an
    instance is found, which acquisitions succeed, and what the spawned
    process yields.  Releases return [None] (a false value). *)
Definition scripted_env
    (resolve : string -> option string -> string ->
               string * option string * string)
    (found : option string) (key_ok trust_ok session_ok : bool)
    (run : result pyvalue) : Env unit unit :=
  {| fetch_instance_details_from_config :=
       fun _ name profile region => Ok (resolve name profile region);
     get_aws_client :=
       fun service region _ =>
         Ok (mkClient service
               ("https://" ++ service ++ "." ++ region ++ ".amazonaws.com"));
     get_aws_resource := fun service _ _ => Ok (mkResource service);
     query_instance := fun _ _ => Ok found;
     get_instance_details :=
       fun _ _ => Ok [("instance_id", "i-0123456789abcdef0");
                      ("availability_zone", "us-east-1a")];
     SshKey_enter := fun _ _ _ _ => outcome_of key_ok "KeyGenerationError";
     SshKey_exit := fun _ _ => Ok false;
     SshKeyUploader_enter :=
       fun _ _ _ _ _ => outcome_of trust_ok "TrustInstallError";
     SshKeyUploader_exit := fun _ => Ok false;
     BaseSession_enter :=
       fun s => if session_ok then Ok (store_response s)
                else Raise (mkExn "ClientError" "rejected");
     BaseSession_exit := fun _ _ => Ok false;
     execute := fun _ _ => run |}.

Definition unresolved (name : string) (profile : option string)
    (region : string) : string * option string * string :=
  (name, profile, region).

(** A configuration in which the name [web] is an alias of a host with its
    own profile and region. *)
Definition alias_resolve (name : string) (profile : option string)
    (region : string) : string * option string * string :=
  if String.eqb name "web" then ("web-server-1", Some "prod", "eu-west-1")
  else (name, profile, region).

(** Everything succeeds and the spawned process ends with status 255. *)
Definition exit_255_env : Env unit unit :=
  scripted_env unresolved (Some "i-0123456789abcdef0") true true true
    (Ok (PInt 255)).

(** Everything succeeds, and the name is an alias. *)
Definition alias_env : Env unit unit :=
  scripted_env alias_resolve (Some "i-0123456789abcdef0") true true true
    (Ok (PInt 0)).

(** [env] with another outcome of [SshKey.__exit__]. *)
Definition with_key_exit (env : Env unit unit) (outcome : result bool)
  : Env unit unit :=
  {| fetch_instance_details_from_config :=
       fetch_instance_details_from_config env;
     get_aws_client := get_aws_client env;
     get_aws_resource := get_aws_resource env;
     query_instance := query_instance env;
     get_instance_details := get_instance_details env;
     SshKey_enter := SshKey_enter env;
     SshKey_exit := fun _ _ => outcome;
     SshKeyUploader_enter := SshKeyUploader_enter env;
     SshKeyUploader_exit := SshKeyUploader_exit env;
     BaseSession_enter := BaseSession_enter env;
     BaseSession_exit := BaseSession_exit env;
     execute := execute env |}.

(** [env] with other instance details. *)
Definition with_details (env : Env unit unit)
    (details : list (string * string)) : Env unit unit :=
  {| fetch_instance_details_from_config :=
       fetch_instance_details_from_config env;
     get_aws_client := get_aws_client env;
     get_aws_resource := get_aws_resource env;
     query_instance := query_instance env;
     get_instance_details := fun _ _ => Ok details;
     SshKey_enter := SshKey_enter env;
     SshKey_exit := SshKey_exit env;
     SshKeyUploader_enter := SshKeyUploader_enter env;
     SshKeyUploader_exit := SshKeyUploader_exit env;
     BaseSession_enter := BaseSession_enter env;
     BaseSession_exit := BaseSession_exit env;
     execute := execute env |}.

Definition sample_session : SshSession :=
  {| _instance_id := "i-0123456789abcdef0";
     _region_name := "us-east-1";
     _profile_name := "default";
     _ssm := Some (mkClient "ssm" "https://ssm.us-east-1.amazonaws.com");
     _port := 22;
     _user := "ec2-user";
     _command := Some ["uname"; "-a"];
     _key_path := "/home/op/.aws-gate/i-0123456789abcdef0.us-east-1.default";
     _agent_mode := false;
     _ssh_cmd := None;
     _session_parameters := PNone;
     _response := sample_response |}.

(** The command line built for [sample_session]. *)
Definition sample_command : list string :=
  match _build_ssh_command sample_constants sample_session with
  | Ok argv => argv
  | Raise _ => []
  end.

(** * Properties *)

(** ** Quoting survives the shell *)

Lemma append_nil_r (s : string) : s ++ EmptyString = s.
Proof. induction s as [|c s IH]; simpl; [reflexivity | now rewrite IH]. Qed.

Lemma append_assoc (a b c : string) : (a ++ b) ++ c = a ++ (b ++ c).
Proof. induction a as [|x a IH]; simpl; [reflexivity | now rewrite IH]. Qed.

(** A character [shlex.quote] leaves bare is an ordinary character of an
    unquoted shell word. *)
Lemma shlex_safe_plain (c : ascii) :
  shlex_safe c = true ->
  sh_blank c = false /\ Ascii.eqb c squote = false
  /\ Ascii.eqb c dquote = false /\ Ascii.eqb c backslash = false
  /\ sh_hazard c = false.
Proof.
  destruct c as [[] [] [] [] [] [] [] []]; vm_compute; intro H;
    first [discriminate H | repeat split].
Qed.

Lemma sh_scan_plain (cur : option string) (c : ascii) (r : string) :
  shlex_safe c = true ->
  sh_scan Unquoted cur (String c r) = sh_scan Unquoted (push cur c) r.
Proof.
  intro H. destruct (shlex_safe_plain c H) as (Hb & Hs & Hd & Hk & Hz).
  simpl. rewrite Hb, Hs, Hd, Hk, Hz. reflexivity.
Qed.

Lemma sh_scan_safe (w : string) :
  forall (cur : option string) (rest : string),
    string_forall shlex_safe w = true ->
    sh_scan Unquoted cur (w ++ rest) =
    sh_scan Unquoted
      (match w with
       | EmptyString => cur
       | _ => Some (word_of cur ++ w)
       end) rest.
Proof.
  induction w as [|c w IH]; intros cur rest H.
  - reflexivity.
  - simpl in H. apply andb_true_iff in H. destruct H as [Hc Hw].
    change (String c w ++ rest) with (String c (w ++ rest)).
    rewrite (sh_scan_plain _ _ _ Hc), (IH _ _ Hw).
    destruct w as [|d w].
    + reflexivity.
    + unfold push. simpl word_of. unfold str1. rewrite append_assoc.
      reflexivity.
Qed.

Lemma sh_scan_single_escape (w rest : string) :
  sh_scan InSingle (Some w) (squote_escape ++ rest) =
  sh_scan InSingle (Some (w ++ str1 squote)) rest.
Proof. reflexivity. Qed.

Lemma sh_scan_single (s : string) :
  forall (w rest : string),
    sh_scan InSingle (Some w)
      (str_replace_char squote squote_escape s ++ String squote rest) =
    sh_scan Unquoted (Some (w ++ s)) rest.
Proof.
  induction s as [|c s IH]; intros w rest.
  - simpl. rewrite append_nil_r. reflexivity.
  - destruct (Ascii.eqb c squote) eqn:E.
    + apply Ascii.eqb_eq in E. subst c.
      change (str_replace_char squote squote_escape (String squote s))
        with (squote_escape ++ str_replace_char squote squote_escape s).
      rewrite append_assoc, sh_scan_single_escape, IH, append_assoc.
      reflexivity.
    + assert (R : str_replace_char squote squote_escape (String c s) =
                  String c (str_replace_char squote squote_escape s))
        by (simpl; rewrite E; reflexivity).
      rewrite R.
      change (String c (str_replace_char squote squote_escape s)
              ++ String squote rest)
        with (String c (str_replace_char squote squote_escape s
                        ++ String squote rest)).
      assert (S1 : forall r, sh_scan InSingle (Some w) (String c r) =
                             sh_scan InSingle (Some (w ++ str1 c)) r)
        by (intro r; simpl; rewrite E; reflexivity).
      rewrite S1, IH, append_assoc. reflexivity.
Qed.

Lemma sh_scan_open_single (r : string) :
  sh_scan Unquoted None (String squote r) =
  sh_scan InSingle (Some EmptyString) r.
Proof. reflexivity. Qed.

Lemma sh_scan_quote (s rest : string) :
  sh_scan Unquoted None (shlex_quote s ++ rest) = sh_scan Unquoted (Some s) rest.
Proof.
  unfold shlex_quote. destruct s as [|c s].
  - reflexivity.
  - destruct (string_forall shlex_safe (String c s)) eqn:E.
    + rewrite (sh_scan_safe _ None rest E). reflexivity.
    + rewrite !append_assoc.
      change (str1 squote ++ ?x) with (String squote x).
      rewrite sh_scan_open_single.
      change (str1 squote ++ rest) with (String squote rest).
      rewrite sh_scan_single. reflexivity.
Qed.

(** Splitting the space-joined quoted words gives the words back. *)
Lemma sh_words_join_quote (args : list string) :
  sh_words (String.concat " " (map shlex_quote args)) = Some args.
Proof.
  unfold sh_words. induction args as [|a l IH].
  - reflexivity.
  - destruct l as [|b l].
    + simpl. rewrite <- (append_nil_r (shlex_quote a)), sh_scan_quote.
      reflexivity.
    + change (String.concat " " (map shlex_quote (a :: b :: l)))
        with (shlex_quote a
              ++ String " "%char
                   (String.concat " " (map shlex_quote (b :: l)))).
      rewrite sh_scan_quote.
      change (sh_scan Unquoted (Some a) (String " "%char ?r))
        with (flush (Some a) (sh_scan Unquoted None r)).
      rewrite IH. reflexivity.
Qed.

(** The quoting and the splitting on texts with blanks, quotes and shell
    metacharacters. *)
Example shlex_quote_examples :
  shlex_quote "us-east-1" = "us-east-1"
  /\ shlex_quote EmptyString = "''"
  /\ shlex_quote "a b; rm -rf $HOME" = "'a b; rm -rf $HOME'"
  /\ shlex_quote "it's" = "'it" ++ squote_escape ++ "s'"
  /\ json_dumps (PList [PInt 1; PBool true; PNone; PInt (-7)]) =
     "[1, true, null, -7]".
Proof. repeat split; reflexivity. Qed.

Example sh_words_examples :
  sh_words (String.concat " "
              (map shlex_quote
                 ["plugin path"; "it's"; EmptyString; "$(reboot)"; "a|b>c";
                  json_dumps sample_response; "*"])) =
  Some ["plugin path"; "it's"; EmptyString; "$(reboot)"; "a|b>c";
        json_dumps sample_response; "*"]
  /\ sh_words "plugin $(reboot)" = None
  /\ sh_words "a 'b" = None
  /\ sh_words ("a  b" ++ String "009"%char "c") = Some ["a"; "b"; "c"].
Proof. repeat split; reflexivity. Qed.

(** C3: whatever the plugin path, the serialized session-start response,
    the region, the profile, the serialized session parameters and the
    endpoint URL are, cutting the built ProxyCommand string into shell words
    gives back the seven arguments, in order.  The second half states it for
    six arbitrary texts, so also for texts that are not JSON. *)
Theorem proxy_command_shell_roundtrip :
  (forall (K : Constants) (self : SshSession) (response : pyvalue)
          (ssm : aws_client),
      sh_words (proxy_command K self response ssm) =
      Some [ PLUGIN_INSTALL_PATH K; json_dumps response; _region_name self;
             "StartSession"; _profile_name self;
             json_dumps (_session_parameters self); meta_endpoint_url ssm ])
  /\ (forall plugin response region profile parameters url : string,
         sh_words
           (String.concat " "
              (map shlex_quote
                 [plugin; response; region; "StartSession"; profile;
                  parameters; url])) =
         Some [plugin; response; region; "StartSession"; profile;
               parameters; url]).
Proof.
  split; intros.
  - unfold proxy_command, proxy_command_args. apply sh_words_join_quote.
  - apply sh_words_join_quote.
Qed.

(** ** The built command line *)

Lemma build_ssh_command_ok (K : Constants) (self : SshSession)
    (cmd : list string) :
  _build_ssh_command K self = Ok cmd ->
  exists response ssm,
    _response self = response /\ _ssm self = Some ssm.
Proof.
  unfold _build_ssh_command. intro H.
  destruct (_ssm self) as [ssm|]; [|discriminate H].
  exists (_response self), ssm. split; reflexivity.
Qed.

Lemma build_ssh_command_eq (K : Constants) (self : SshSession)
    (response : pyvalue) (ssm : aws_client) :
  _response self = response ->
  _ssm self = Some ssm ->
  _build_ssh_command K self =
  Ok ("ssh" :: "-l" :: _user self :: "-p" :: py_str_int (_port self)
      :: "-F" :: "/dev/null" :: (if DEBUG K then "-vv" else "-q")
      :: "-o" :: ("IdentitiesOnly=" ++ (if _agent_mode self then "no" else "yes"))
      :: "-o" :: ("IdentityFile=" ++ _key_path self)
      :: "-o" :: "UserKnownHostsFile=/dev/null"
      :: "-o" :: "StrictHostKeyChecking=no"
      :: "-o" :: ("ProxyCommand=" ++ proxy_command K self response ssm)
      :: _instance_id self
      :: match _command self with
         | Some (c :: cs) => "--" :: c :: cs
         | _ => []
         end).
Proof.
  intros Hr Hs. unfold _build_ssh_command. rewrite Hr, Hs.
  unfold ssh_options, command_given.
  destruct (_command self) as [[|c cs]|]; reflexivity.
Qed.

Lemma option_value_IdentitiesOnly (u p v x : string) (rest : list string) :
  ssh_option_value "IdentitiesOnly"
    ("ssh" :: "-l" :: u :: "-p" :: p :: "-F" :: "/dev/null" :: v
     :: "-o" :: ("IdentitiesOnly=" ++ x) :: rest) = Some x.
Proof.
  simpl. destruct (String.eqb u "-o"), (String.eqb p "-o"),
    (String.eqb v "-o"); reflexivity.
Qed.

Lemma option_value_ProxyCommand (u p v x y z : string) (rest : list string) :
  ssh_option_value "ProxyCommand"
    ("ssh" :: "-l" :: u :: "-p" :: p :: "-F" :: "/dev/null" :: v
     :: "-o" :: ("IdentitiesOnly=" ++ x)
     :: "-o" :: ("IdentityFile=" ++ y)
     :: "-o" :: "UserKnownHostsFile=/dev/null"
     :: "-o" :: "StrictHostKeyChecking=no"
     :: "-o" :: ("ProxyCommand=" ++ z) :: rest) = Some z.
Proof.
  simpl. destruct (String.eqb u "-o"), (String.eqb p "-o"),
    (String.eqb v "-o"); reflexivity.
Qed.

(** C5: in every built invocation the ProxyCommand option holds the
    space-joined, individually quoted list: plugin path, serialized
    session-start response, region, the literal StartSession, profile,
    serialized session parameters, endpoint URL. *)
Theorem proxy_command_option_value (K : Constants) (self : SshSession)
    (cmd : list string) :
  _build_ssh_command K self = Ok cmd ->
  exists response ssm,
    _response self = response /\ _ssm self = Some ssm
    /\ ssh_option_value "ProxyCommand" cmd =
       Some (String.concat " "
               [ shlex_quote (PLUGIN_INSTALL_PATH K);
                 shlex_quote (json_dumps response);
                 shlex_quote (_region_name self);
                 shlex_quote "StartSession";
                 shlex_quote (_profile_name self);
                 shlex_quote (json_dumps (_session_parameters self));
                 shlex_quote (meta_endpoint_url ssm) ]).
Proof.
  intro H. destruct (build_ssh_command_ok K self cmd H) as (r & c & Hr & Hs).
  exists r, c. split; [exact Hr | split; [exact Hs |]].
  replace cmd with (match _build_ssh_command K self with
                    | Ok argv => argv
                    | Raise _ => []
                    end) by (rewrite H; reflexivity).
  rewrite (build_ssh_command_eq K self r c Hr Hs). cbv beta iota.
  rewrite option_value_ProxyCommand. reflexivity.
Qed.

Lemma proxy_command_option_value_witness :
  _build_ssh_command sample_constants sample_session = Ok sample_command
  /\ exists response ssm,
       _response sample_session = response
       /\ _ssm sample_session = Some ssm
       /\ ssh_option_value "ProxyCommand" sample_command =
          Some (String.concat " "
                  [ shlex_quote (PLUGIN_INSTALL_PATH sample_constants);
                    shlex_quote (json_dumps response);
                    shlex_quote (_region_name sample_session);
                    shlex_quote "StartSession";
                    shlex_quote (_profile_name sample_session);
                    shlex_quote (json_dumps (_session_parameters sample_session));
                    shlex_quote (meta_endpoint_url ssm) ]).
Proof.
  split; [reflexivity |].
  apply (proxy_command_option_value sample_constants sample_session
           sample_command).
  reflexivity.
Defined.

(** C6: the built argument list is, in order, the base invocation with the
    user, the port and [-F /dev/null]; one verbosity flag, [-vv] under the
    debug flag and [-q] otherwise; the five [-o] options IdentitiesOnly,
    IdentityFile, UserKnownHostsFile, StrictHostKeyChecking, ProxyCommand;
    the instance id; and, when a remote command (a non-empty token list)
    was given, [--] and its tokens as they are. *)
Theorem build_ssh_command_layout (K : Constants) (self : SshSession)
    (cmd : list string) :
  _build_ssh_command K self = Ok cmd ->
  exists response ssm,
    _response self = response /\ _ssm self = Some ssm
    /\ cmd =
       (["ssh"; "-l"; _user self; "-p"; py_str_int (_port self);
         "-F"; "/dev/null"]
        ++ [if DEBUG K then "-vv" else "-q"]
        ++ ["-o"; ("IdentitiesOnly=" ++ (if _agent_mode self then "no" else "yes"))%string;
            "-o"; ("IdentityFile=" ++ _key_path self)%string;
            "-o"; "UserKnownHostsFile=/dev/null";
            "-o"; "StrictHostKeyChecking=no";
            "-o"; ("ProxyCommand=" ++ proxy_command K self response ssm)%string]
        ++ [_instance_id self]
        ++ match _command self with
           | Some (token :: tokens) => "--" :: token :: tokens
           | _ => []
           end)%list.
Proof.
  intro H. destruct (build_ssh_command_ok K self cmd H) as (r & c & Hr & Hs).
  exists r, c. split; [exact Hr | split; [exact Hs |]].
  pose proof (build_ssh_command_eq K self r c Hr Hs) as E.
  rewrite H in E. injection E as ->. reflexivity.
Qed.

Lemma build_ssh_command_layout_witness :
  _build_ssh_command sample_constants sample_session = Ok sample_command
  /\ sample_command =
     (["ssh"; "-l"; "ec2-user"; "-p"; "22"; "-F"; "/dev/null"]
      ++ ["-q"]
      ++ ["-o"; "IdentitiesOnly=yes";
          "-o"; "IdentityFile=/home/op/.aws-gate/i-0123456789abcdef0.us-east-1.default";
          "-o"; "UserKnownHostsFile=/dev/null";
          "-o"; "StrictHostKeyChecking=no";
          "-o"; ("ProxyCommand="
                 ++ proxy_command sample_constants sample_session
                      sample_response
                      (mkClient "ssm" "https://ssm.us-east-1.amazonaws.com"))%string]
      ++ ["i-0123456789abcdef0"]
      ++ ["--"; "uname"; "-a"])%list.
Proof.
  split; [reflexivity |].
  destruct (build_ssh_command_layout sample_constants sample_session
              sample_command eq_refl) as (r & c & Hr & Hs & E).
  injection Hs as <-. rewrite <- Hr in E. exact E.
Defined.

(** An empty token list counts as no command: nothing follows the
    instance id. *)
Example empty_command_adds_no_separator :
  option_map (fun argv => last argv EmptyString)
    (match _build_ssh_command sample_constants
             (store_response
                {| _instance_id := "i-0123456789abcdef0";
                   _region_name := "us-east-1";
                   _profile_name := "default";
                   _ssm := Some (mkClient "ssm" "https://ssm.us-east-1.amazonaws.com");
                   _port := 22;
                   _user := "ec2-user";
                   _command := Some [];
                   _key_path := "/home/op/.aws-gate/k";
                   _agent_mode := true;
                   _ssh_cmd := None;
                   _session_parameters := PNone;
                   _response := PNone |}) with
     | Ok argv => Some argv
     | Raise _ => None
     end) = Some "i-0123456789abcdef0".
Proof. reflexivity. Qed.

(** C7: every built invocation carries the IdentitiesOnly option; its value
    is [no] exactly when agent mode is on and [yes] exactly when it is
    off. *)
Theorem identities_only_iff_agent_mode (K : Constants) (self : SshSession)
    (cmd : list string) :
  _build_ssh_command K self = Ok cmd ->
  (exists v, ssh_option_value "IdentitiesOnly" cmd = Some v)
  /\ (ssh_option_value "IdentitiesOnly" cmd = Some "no"
      <-> _agent_mode self = true)
  /\ (ssh_option_value "IdentitiesOnly" cmd = Some "yes"
      <-> _agent_mode self = false).
Proof.
  intro H. destruct (build_ssh_command_ok K self cmd H) as (r & c & Hr & Hs).
  replace cmd with (match _build_ssh_command K self with
                    | Ok argv => argv
                    | Raise _ => []
                    end) by (rewrite H; reflexivity).
  rewrite (build_ssh_command_eq K self r c Hr Hs). cbv beta iota.
  rewrite option_value_IdentitiesOnly.
  destruct (_agent_mode self); repeat split;
    solve [eexists; reflexivity | reflexivity | discriminate].
Qed.

Lemma identities_only_iff_agent_mode_witness :
  _build_ssh_command sample_constants sample_session = Ok sample_command
  /\ (exists v, ssh_option_value "IdentitiesOnly" sample_command = Some v)
  /\ (ssh_option_value "IdentitiesOnly" sample_command = Some "no"
      <-> _agent_mode sample_session = true)
  /\ (ssh_option_value "IdentitiesOnly" sample_command = Some "yes"
      <-> _agent_mode sample_session = false).
Proof.
  split; [reflexivity |].
  apply (identities_only_iff_agent_mode sample_constants sample_session
           sample_command).
  reflexivity.
Defined.

(** C8: constructing a session for instance [I] and port [P] makes no
    external call, and the descriptor it stores, the sixth argument of the
    proxy command in serialized form, is Target = I, DocumentName =
    AWS-StartSSHSession, Parameters = portNumber: [str(P)]. *)
Theorem session_parameters_descriptor (instance_id key_path : string)
    (ssm : option aws_client) (region_name : string)
    (profile_name : option string) (port : Z) (user : string)
    (command : option (list string)) (agent_mode : bool) :
  exists self,
    SshSession_init instance_id key_path ssm region_name profile_name port
                    user command agent_mode = (Ok self, [])
    /\ _session_parameters self =
       PDict [ ("Target", PStr instance_id);
               ("DocumentName", PStr "AWS-StartSSHSession");
               ("Parameters",
                PDict [("portNumber", PList [PStr (py_str_int port)])]) ]
    /\ forall (K : Constants) (response : pyvalue) (client : aws_client),
         nth_error (proxy_command_args K self response client) 5 =
         Some (json_dumps
                 (PDict [ ("Target", PStr instance_id);
                          ("DocumentName", PStr "AWS-StartSSHSession");
                          ("Parameters",
                           PDict [("portNumber",
                                   PList [PStr (py_str_int port)])]) ])).
Proof.
  eexists. split; [reflexivity |]. split; [reflexivity |].
  intros K response client. reflexivity.
Qed.

(** C10: a session constructed with [profile_name = None] stores the empty
    string as its profile; the profile element of the proxy command is then
    the quoted empty token (two single quotes), which the shell reads back
    as an empty word, and not the text None. *)
Theorem none_profile_is_empty_token (instance_id key_path : string)
    (ssm : option aws_client) (region_name : string) (port : Z)
    (user : string) (command : option (list string)) (agent_mode : bool) :
  exists self,
    SshSession_init instance_id key_path ssm region_name None port user
                    command agent_mode = (Ok self, [])
    /\ _profile_name self = EmptyString
    /\ forall (K : Constants) (response : pyvalue) (client : aws_client),
         proxy_command K self response client =
         String.concat " "
           [ shlex_quote (PLUGIN_INSTALL_PATH K);
             shlex_quote (json_dumps response);
             shlex_quote region_name;
             "StartSession";
             "''";
             shlex_quote (json_dumps (_session_parameters self));
             shlex_quote (meta_endpoint_url client) ]
         /\ nth_error (map shlex_quote (proxy_command_args K self response client)) 4
            = Some "''"
         /\ option_map (fun words => nth_error words 4)
              (sh_words (proxy_command K self response client))
            = Some (Some EmptyString).
Proof.
  eexists. split; [reflexivity |]. split; [reflexivity |].
  intros K response client. split; [reflexivity |]. split; [reflexivity |].
  unfold proxy_command. rewrite sh_words_join_quote. reflexivity.
Qed.

(** ** The orchestration *)











Ltac unfold_run :=
  unfold ssh, ssh_scopes, with_, bind, ext, SshSession_open,
    SshSession_init, raise, ret.

(** C9: when the name resolves to no instance, [ssh] raises a [ValueError]
    that names the instance, and has by then generated no key, reached no
    trust broker, started no session and spawned no process; nothing was
    acquired, so nothing is released. *)
Theorem ssh_no_instance_raises_before_acquiring {Config Key : Type}
    (K : Constants) (env : Env Config Key) (config : Config)
    (instance_name user : string) (port : Z) (key_type : string)
    (key_size : Z) (profile_name : option string) (region_name : string)
    (command : option (list string)) (agent_mode : bool)
    (instance : string) (profile : option string) (region : string)
    (ssm ec2_ic : aws_client) (ec2 : aws_resource) :
  fetch_instance_details_from_config env config instance_name profile_name
    region_name = Ok (instance, profile, region) ->
  get_aws_client env "ssm" region profile = Ok ssm ->
  get_aws_resource env "ec2" region profile = Ok ec2 ->
  get_aws_client env "ec2-instance-connect" region profile = Ok ec2_ic ->
  query_instance env instance ec2 = Ok None ->
  fst (ssh K env config instance_name user port key_type key_size
         profile_name region_name command agent_mode) =
    Raise (ValueError ("No instance could be found for name: " ++ instance))
  /\ existsb side_effecting
       (snd (ssh K env config instance_name user port key_type key_size
               profile_name region_name command agent_mode)) = false
  /\ lifecycle
       (snd (ssh K env config instance_name user port key_type key_size
               profile_name region_name command agent_mode)) = [].
Proof.
  intros Hf Hs He Hi Hq. unfold_run.
  rewrite Hf. cbv beta iota zeta. rewrite Hs. cbv beta iota zeta.
  rewrite He. cbv beta iota zeta. rewrite Hi. cbv beta iota zeta.
  rewrite Hq. cbv beta iota zeta.
  repeat split.
Qed.

Lemma ssh_no_instance_raises_before_acquiring_witness :
  query_instance
    (scripted_env unresolved None true true true (Ok (PInt 0)))
    "web" (mkResource "ec2") = Ok None
  /\ fst (ssh sample_constants
            (scripted_env unresolved None true true true (Ok (PInt 0)))
            tt "web" "ec2-user" 22 "rsa" 4096 (Some "default") "us-east-1"
            None false) =
     Raise (ValueError "No instance could be found for name: web")
  /\ existsb side_effecting
       (snd (ssh sample_constants
               (scripted_env unresolved None true true true (Ok (PInt 0)))
               tt "web" "ec2-user" 22 "rsa" 4096 (Some "default")
               "us-east-1" None false)) = false
  /\ lifecycle
       (snd (ssh sample_constants
               (scripted_env unresolved None true true true (Ok (PInt 0)))
               tt "web" "ec2-user" 22 "rsa" 4096 (Some "default")
               "us-east-1" None false)) = [].
Proof.
  split; [reflexivity |].
  apply (ssh_no_instance_raises_before_acquiring sample_constants
           (scripted_env unresolved None true true true (Ok (PInt 0)))
           tt "web" "ec2-user" 22 "rsa" 4096 (Some "default") "us-east-1"
           None false "web" (Some "default") "us-east-1"
           (mkClient "ssm" "https://ssm.us-east-1.amazonaws.com")
           (mkClient "ec2-instance-connect"
              "https://ec2-instance-connect.us-east-1.amazonaws.com")
           (mkResource "ec2"));
    reflexivity.
Defined.


(** Failures at each acquisition step, on the scripted collaborators. *)
Example key_failure_releases_nothing :
  let run := ssh sample_constants
               (scripted_env unresolved (Some "i-0123456789abcdef0")
                  false true true (Ok (PInt 0)))
               tt "web" "ec2-user" 22 "rsa" 4096 (Some "default")
               "us-east-1" None false in
  fst run = Raise (mkExn "KeyGenerationError" "rejected")
  /\ lifecycle (snd run) = [].
Proof. split; reflexivity. Qed.

Example trust_failure_releases_key :
  let run := ssh sample_constants
               (scripted_env unresolved (Some "i-0123456789abcdef0")
                  true false true (Ok (PInt 0)))
               tt "web" "ec2-user" 22 "rsa" 4096 (Some "default")
               "us-east-1" None false in
  fst run = Raise (mkExn "TrustInstallError" "rejected")
  /\ lifecycle (snd run) = [Acquired RSshKey; Released RSshKey]
  /\ existsb (fun e => match e with Called (Execute _ _) => true | _ => false end)
       (snd run) = false.
Proof. repeat split; reflexivity. Qed.

Example session_failure_releases_trust_then_key :
  let run := ssh sample_constants
               (scripted_env unresolved (Some "i-0123456789abcdef0")
                  true true false (Ok (PInt 0)))
               tt "web" "ec2-user" 22 "rsa" 4096 (Some "default")
               "us-east-1" None false in
  fst run = Raise (mkExn "ClientError" "rejected")
  /\ lifecycle (snd run) =
     [Acquired RSshKey; Acquired RSshKeyUploader;
      Released RSshKeyUploader; Released RSshKey].
Proof. split; reflexivity. Qed.

Example launch_failure_releases_all :
  let run := ssh sample_constants
               (scripted_env unresolved (Some "i-0123456789abcdef0")
                  true true true (Raise (ValueError "ssh cannot be found")))
               tt "web" "ec2-user" 22 "rsa" 4096 (Some "default")
               "us-east-1" None false in
  fst run = Raise (ValueError "ssh cannot be found")
  /\ lifecycle (snd run) =
     [Acquired RSshKey; Acquired RSshKeyUploader; Acquired RSshSession;
      Released RSshSession; Released RSshKeyUploader; Released RSshKey].
Proof. split; reflexivity. Qed.

(** C1, as the code has it: when resolution and the three acquisitions
    succeed, the spawned process ends with any status and the three
    releases return, [ssh] raises nothing and returns [None]; the status is
    the value of [SshSession.open], which [ssh] does not pass on. *)
Theorem ssh_returns_none_after_process_exit {Config Key : Type}
    (K : Constants) (env : Env Config Key) (config : Config)
    (instance_name user : string) (port : Z) (key_type : string)
    (key_size : Z) (profile_name : option string) (region_name : string)
    (command : option (list string)) (agent_mode : bool)
    (instance : string) (profile : option string) (region : string)
    (ssm ec2_ic : aws_client) (ec2 : aws_resource) (instance_id : string)
    (details : list (string * string)) (az : string) (key : Key)
    (session0 session : SshSession) (cmd : string) (args : list string)
    (status : pyvalue) (b1 b2 b3 : bool) :
  fetch_instance_details_from_config env config instance_name profile_name
    region_name = Ok (instance, profile, region) ->
  get_aws_client env "ssm" region profile = Ok ssm ->
  get_aws_resource env "ec2" region profile = Ok ec2 ->
  get_aws_client env "ec2-instance-connect" region profile = Ok ec2_ic ->
  query_instance env instance ec2 = Ok (Some instance_id) ->
  get_instance_details env instance_id ec2 = Ok details ->
  dict_get details "availability_zone" = Ok az ->
  SshKey_enter env key_type key_size
    (ssh_key_path K instance_id region_name profile_name) agent_mode = Ok key ->
  SshKeyUploader_enter env instance_id az user key ec2_ic = Ok tt ->
  fst (SshSession_init instance_id
         (ssh_key_path K instance_id region_name profile_name) (Some ssm)
         region profile port user command agent_mode) = Ok session0 ->
  BaseSession_enter env session0 = Ok session ->
  _build_ssh_command K session = Ok (cmd :: args) ->
  execute env cmd args = Ok status ->
  BaseSession_exit env session None = Ok b1 ->
  SshKeyUploader_exit env None = Ok b2 ->
  SshKey_exit env key None = Ok b3 ->
  fst (ssh K env config instance_name user port key_type key_size
         profile_name region_name command agent_mode) = Ok PNone
  /\ (exists session',
        SshSession_open K env session =
        (Ok (session', status), [Called (Execute cmd args)]))
  /\ In (Called (Execute cmd args))
        (snd (ssh K env config instance_name user port key_type key_size
                profile_name region_name command agent_mode)).
Proof.
  intros Hf Hs He Hi Hq Hd Hz Hk Hu H0 Hn Hb Hx X1 X2 X3.
  simpl in H0. injection H0 as <-.
  assert (Hopen : exists session',
             SshSession_open K env session =
             (Ok (session', status), [Called (Execute cmd args)])).
  { unfold SshSession_open. rewrite Hb. unfold bind, ext, ret.
    rewrite Hx. eexists. reflexivity. }
  destruct Hopen as (session' & Hopen).
  assert (Hrun :
    ssh K env config instance_name user port key_type key_size
      profile_name region_name command agent_mode =
    (Ok PNone,
     [ Called (FetchInstanceDetails instance_name profile_name region_name);
       Called (GetAwsClient "ssm" region profile);
       Called (GetAwsResource "ec2" region profile);
       Called (GetAwsClient "ec2-instance-connect" region profile);
       Called (QueryInstance instance);
       Called (GetInstanceDetails instance_id);
       Called (SshKeyEnter key_type key_size
                 (ssh_key_path K instance_id region_name profile_name)
                 agent_mode);
       Acquired RSshKey;
       Called (SshKeyUploaderEnter instance_id az user);
       Acquired RSshKeyUploader;
       Called (SshSessionEnter
                 {| _instance_id := instance_id;
                    _region_name := region;
                    _profile_name := match profile with
                                     | Some p => p
                                     | None => EmptyString
                                     end;
                    _ssm := Some ssm;
                    _port := port;
                    _user := user;
                    _command := command;
                    _key_path :=
                      ssh_key_path K instance_id region_name profile_name;
                    _agent_mode := agent_mode;
                    _ssh_cmd := None;
                    _session_parameters :=
                      PDict [ ("Target", PStr instance_id);
                              ("DocumentName", PStr "AWS-StartSSHSession");
                              ("Parameters",
                               PDict [("portNumber",
                                       PList [PStr (py_str_int port)])]) ];
                    _response := PNone |});
       Acquired RSshSession;
       Called (Execute cmd args);
       Released RSshSession; Released RSshKeyUploader; Released RSshKey ])).
  { unfold ssh, ssh_scopes, with_, SshSession_init, bind, ext, ret.
    rewrite Hf. cbv beta iota zeta. rewrite Hs. cbv beta iota zeta.
    rewrite He. cbv beta iota zeta. rewrite Hi. cbv beta iota zeta.
    rewrite Hq. cbv beta iota zeta. rewrite Hd. cbv beta iota zeta.
    rewrite Hz. cbv beta iota zeta. rewrite Hk. cbv beta iota zeta.
    rewrite Hu. cbv beta iota zeta. rewrite Hn. cbv beta iota zeta.
    rewrite Hopen. cbv beta iota zeta.
    rewrite X1, X2, X3. reflexivity. }
  rewrite Hrun. split; [reflexivity |]. split.
  - exists session'. exact Hopen.
  - simpl. tauto.
Qed.

Lemma ssh_returns_none_after_process_exit_witness :
  (exists args,
      In (Called (Execute "ssh" args))
         (snd (ssh sample_constants exit_255_env tt "web" "ec2-user" 22 "rsa"
                 4096 (Some "default") "us-east-1" None false))
      /\ execute exit_255_env "ssh" args = Ok (PInt 255))
  /\ fst (ssh sample_constants exit_255_env tt "web" "ec2-user" 22 "rsa" 4096
            (Some "default") "us-east-1" None false) = Ok PNone.
Proof.
  split.
  - eexists. split; [| reflexivity].
    eapply proj2. eapply proj2.
    eapply (ssh_returns_none_after_process_exit sample_constants exit_255_env);
      reflexivity.
  - eapply proj1.
    eapply (ssh_returns_none_after_process_exit sample_constants exit_255_env);
      reflexivity.
Defined.

(** C1 fails as stated: the process ends with status 255, every step
    succeeds, and the call returns [None], not 255. *)
Lemma ssh_drops_exit_status_255 :
  (exists args,
      In (Called (Execute "ssh" args))
         (snd (ssh sample_constants exit_255_env tt "web" "ec2-user" 22 "rsa"
                 4096 (Some "default") "us-east-1" None false))
      /\ execute exit_255_env "ssh" args = Ok (PInt 255))
  /\ fst (ssh sample_constants exit_255_env tt "web" "ec2-user" 22 "rsa" 4096
            (Some "default") "us-east-1" None false) = Ok PNone
  /\ fst (ssh sample_constants exit_255_env tt "web" "ec2-user" 22 "rsa" 4096
            (Some "default") "us-east-1" None false) <> Ok (PInt 255).
Proof.
  split; [| split; [reflexivity | discriminate]].
  eexists. split; [| reflexivity].
  vm_compute. do 12 right. left. reflexivity.
Qed.

(** ** The key path *)

Lemma key_paths_app (t u : list event) :
  key_paths (t ++ u) = (key_paths t ++ key_paths u)%list.
Proof.
  induction t as [|e t IH]; simpl; [reflexivity |].
  destruct e as [[]| |]; simpl; rewrite IH; reflexivity.
Qed.

Lemma bind_key_paths {A B} (m : M A) (k : A -> M B) :
  key_paths (snd (bind m k)) =
  match fst m with
  | Ok a => (key_paths (snd m) ++ key_paths (snd (k a)))%list
  | Raise _ => key_paths (snd m)
  end.
Proof.
  destruct m as [[a|e] t]; simpl; [| reflexivity].
  destruct (k a) as [r t']. simpl. apply key_paths_app.
Qed.

Lemma with_key_paths {A} (r : resource) (enter : M A)
    (exit_ : A -> option exn -> result bool) (body : A -> M unit) :
  key_paths (snd (with_ r enter exit_ body)) =
  match fst enter with
  | Ok a => (key_paths (snd enter) ++ key_paths (snd (body a)))%list
  | Raise _ => key_paths (snd enter)
  end.
Proof.
  unfold with_. destruct enter as [[a|e] t]; simpl; [| reflexivity].
  destruct (body a) as [rb tb]. simpl.
  rewrite key_paths_app. simpl. rewrite key_paths_app. simpl.
  now rewrite app_nil_r.
Qed.

Lemma SshSession_open_key_paths {Config Key : Type} (K : Constants)
    (env : Env Config Key) (self : SshSession) :
  key_paths (snd (SshSession_open K env self)) = [].
Proof.
  unfold SshSession_open.
  destruct (_build_ssh_command K self) as [[|c args]|e]; try reflexivity.
  rewrite bind_key_paths. unfold ext. simpl.
  destruct (execute env c args); reflexivity.
Qed.

(** The scopes ask for key material once, at the path they were given. *)
Lemma ssh_scopes_key_paths {Config Key : Type} (K : Constants)
    (env : Env Config Key) (instance_id az user : string) (port : Z)
    (key_type : string) (key_size : Z) (key_path : string)
    (profile : option string) (region : string) (ssm ec2_ic : aws_client)
    (command : option (list string)) (agent_mode : bool) :
  key_paths
    (snd (ssh_scopes K env instance_id az user port key_type key_size
            key_path profile region ssm ec2_ic command agent_mode)) =
  [key_path].
Proof.
  unfold ssh_scopes. rewrite with_key_paths. unfold ext. cbn [fst snd].
  destruct (SshKey_enter env key_type key_size key_path agent_mode)
    as [ssh_key|e]; [| reflexivity].
  rewrite with_key_paths. cbn [fst snd].
  destruct (SshKeyUploader_enter env instance_id az user ssh_key ec2_ic)
    as [u|e]; [| reflexivity].
  rewrite bind_key_paths. unfold SshSession_init, ret at 1 2. cbn [fst snd].
  rewrite with_key_paths. cbn [fst snd].
  destruct (BaseSession_enter env _) as [ssh_session|e]; [| reflexivity].
  rewrite bind_key_paths, SshSession_open_key_paths.
  destruct (fst (SshSession_open K env ssh_session)); reflexivity.
Qed.

(** C4: at a call whose profile and region are the usual ones (default,
    us-east-1) and whose name is a configuration alias of a host with
    profile prod in eu-west-1, the clients and the session are made for
    eu-west-1 and prod, as resolved, while the key path is formatted from
    the arguments of the call: it ends in us-east-1.default and is not the
    path of the region and profile the session uses. *)
Theorem ssh_key_path_not_of_session_under_alias :
  fetch_instance_details_from_config alias_env tt "web" (Some "default")
    "us-east-1" = Ok ("web-server-1", Some "prod", "eu-west-1")
  /\ In (Called (GetAwsClient "ssm" "eu-west-1" (Some "prod")))
        (snd (ssh sample_constants alias_env tt "web" "ec2-user" 22 "rsa"
                4096 (Some "default") "us-east-1" None false))
  /\ map (fun s => (_instance_id s, _region_name s, _profile_name s))
       (sessions_entered
          (snd (ssh sample_constants alias_env tt "web" "ec2-user" 22 "rsa"
                  4096 (Some "default") "us-east-1" None false))) =
     [("i-0123456789abcdef0", "eu-west-1", "prod")]
  /\ key_paths
       (snd (ssh sample_constants alias_env tt "web" "ec2-user" 22 "rsa"
               4096 (Some "default") "us-east-1" None false)) =
     ["/home/op/.aws-gate/i-0123456789abcdef0.us-east-1.default"]
  /\ key_paths
       (snd (ssh sample_constants alias_env tt "web" "ec2-user" 22 "rsa"
               4096 (Some "default") "us-east-1" None false)) <>
     [ssh_key_path sample_constants "i-0123456789abcdef0" "eu-west-1"
        (Some "prod")].
Proof.
  split; [reflexivity |]. split; [simpl; tauto |].
  split; [reflexivity |]. split; [reflexivity | discriminate].
Qed.

(** * Further properties of [ssh.py] *)

(** ** Runs of [SshSession.open] and of the scopes *)

Lemma SshSession_open_run {Config Key : Type} (K : Constants)
    (env : Env Config Key) (self : SshSession) :
  SshSession_open K env self =
  match _build_ssh_command K self with
  | Raise e => (Raise e, [])
  | Ok [] => (Raise (IndexError "list index out of range"), [])
  | Ok (c :: args) =>
      (match execute env c args with
       | Ok v => Ok (with_ssh_cmd self (c :: args), v)
       | Raise e => Raise e
       end, [Called (Execute c args)])
  end.
Proof.
  unfold SshSession_open.
  destruct (_build_ssh_command K self) as [[|c args]|e]; try reflexivity.
  unfold bind, ext, ret. destruct (execute env c args); reflexivity.
Qed.

(** A command that builds starts with the program name. *)
Lemma build_ssh_command_head (K : Constants) (self : SshSession)
    (cmd : list string) :
  _build_ssh_command K self = Ok cmd -> exists args, cmd = "ssh" :: args.
Proof.
  intro H. destruct (build_ssh_command_ok K self cmd H) as (r & c & Hr & Hs).
  pose proof (build_ssh_command_eq K self r c Hr Hs) as E.
  rewrite H in E. injection E as ->. eexists. reflexivity.
Qed.

(** The events of the three nested scopes, by the outcome of each
    [__enter__]. *)
Lemma ssh_scopes_trace {Config Key : Type} (K : Constants)
    (env : Env Config Key) (instance_id az user : string) (port : Z)
    (key_type : string) (key_size : Z) (key_path : string)
    (profile : option string) (region : string) (ssm ec2_ic : aws_client)
    (command : option (list string)) (agent_mode : bool) :
  forall session,
    fst (SshSession_init instance_id key_path (Some ssm) region profile port
           user command agent_mode) = Ok session ->
    snd (ssh_scopes K env instance_id az user port key_type key_size
           key_path profile region ssm ec2_ic command agent_mode) =
    (Called (SshKeyEnter key_type key_size key_path agent_mode)
     :: match SshKey_enter env key_type key_size key_path agent_mode with
        | Raise _ => []
        | Ok ssh_key =>
            Acquired RSshKey
            :: Called (SshKeyUploaderEnter instance_id az user)
            :: match SshKeyUploader_enter env instance_id az user ssh_key
                       ec2_ic with
               | Raise _ => []
               | Ok _ =>
                   Acquired RSshKeyUploader
                   :: Called (SshSessionEnter session)
                   :: match BaseSession_enter env session with
                      | Raise _ => []
                      | Ok ssh_session =>
                          Acquired RSshSession
                          :: snd (SshSession_open K env ssh_session)
                          ++ [Released RSshSession]
                      end
                   ++ [Released RSshKeyUploader]
               end
            ++ [Released RSshKey]
        end)%list.
Proof.
  intros session Hs. simpl in Hs. injection Hs as <-.
  unfold ssh_scopes, with_, SshSession_init, bind, ext, ret.
  destruct (SshKey_enter env key_type key_size key_path agent_mode)
    as [ssh_key|e]; [| reflexivity].
  destruct (SshKeyUploader_enter env instance_id az user ssh_key ec2_ic)
    as [u|e]; [| reflexivity].
  destruct (BaseSession_enter env _) as [ssh_session|e]; [| reflexivity].
  destruct (SshSession_open K env ssh_session) as [[v|e] t]; simpl;
    rewrite ?app_nil_r; reflexivity.
Qed.

(** A run of [ssh] either fails while resolving the instance, before
    anything with an effect on keys, trust, sessions or processes, or goes
    through the scopes with the resolved values. *)
Lemma ssh_run_inv {Config Key : Type} (K : Constants) (env : Env Config Key)
    (config : Config) (instance_name user : string) (port : Z)
    (key_type : string) (key_size : Z) (profile_name : option string)
    (region_name : string) (command : option (list string))
    (agent_mode : bool) :
  (existsb side_effecting
     (snd (ssh K env config instance_name user port key_type key_size
             profile_name region_name command agent_mode)) = false
   /\ exists e,
        fst (ssh K env config instance_name user port key_type key_size
               profile_name region_name command agent_mode) = Raise e)
  \/ exists instance profile region ssm ec2 ec2_ic instance_id details az,
       fetch_instance_details_from_config env config instance_name
         profile_name region_name = Ok (instance, profile, region)
       /\ get_aws_client env "ssm" region profile = Ok ssm
       /\ get_aws_resource env "ec2" region profile = Ok ec2
       /\ get_aws_client env "ec2-instance-connect" region profile = Ok ec2_ic
       /\ query_instance env instance ec2 = Ok (Some instance_id)
       /\ get_instance_details env instance_id ec2 = Ok details
       /\ dict_get details "availability_zone" = Ok az
       /\ snd (ssh K env config instance_name user port key_type key_size
                 profile_name region_name command agent_mode) =
          ([ Called (FetchInstanceDetails instance_name profile_name
                       region_name);
             Called (GetAwsClient "ssm" region profile);
             Called (GetAwsResource "ec2" region profile);
             Called (GetAwsClient "ec2-instance-connect" region profile);
             Called (QueryInstance instance);
             Called (GetInstanceDetails instance_id) ]
           ++ snd (ssh_scopes K env instance_id az user port key_type
                     key_size
                     (ssh_key_path K instance_id region_name profile_name)
                     profile region ssm ec2_ic command agent_mode))%list
       /\ fst (ssh K env config instance_name user port key_type key_size
                 profile_name region_name command agent_mode) =
          match fst (ssh_scopes K env instance_id az user port key_type
                       key_size
                       (ssh_key_path K instance_id region_name profile_name)
                       profile region ssm ec2_ic command agent_mode) with
          | Ok _ => Ok PNone
          | Raise e => Raise e
          end.
Proof.
  unfold ssh, bind, ext.
  destruct (fetch_instance_details_from_config env config instance_name
              profile_name region_name)
    as [[[instance profile] region]|e] eqn:Hf;
    [| left; split; [reflexivity | eexists; reflexivity]].
  destruct (get_aws_client env "ssm" region profile) as [ssm|e] eqn:Hs;
    [| left; split; [reflexivity | eexists; reflexivity]].
  destruct (get_aws_resource env "ec2" region profile) as [ec2|e] eqn:He;
    [| left; split; [reflexivity | eexists; reflexivity]].
  destruct (get_aws_client env "ec2-instance-connect" region profile)
    as [ec2_ic|e] eqn:Hi;
    [| left; split; [reflexivity | eexists; reflexivity]].
  destruct (query_instance env instance ec2) as [[instance_id|]|e] eqn:Hq;
    [| left; split; [reflexivity | eexists; reflexivity]
     | left; split; [reflexivity | eexists; reflexivity]].
  destruct (get_instance_details env instance_id ec2) as [details|e] eqn:Hd;
    [| left; split; [reflexivity | eexists; reflexivity]].
  destruct (dict_get details "availability_zone") as [az|e] eqn:Hz;
    [| left; split; [reflexivity | eexists; reflexivity]].
  right. exists instance, profile, region, ssm, ec2, ec2_ic, instance_id,
    details, az.
  repeat (split; [first [reflexivity | assumption] |]).
  destruct (ssh_scopes K env instance_id az user port key_type key_size
              (ssh_key_path K instance_id region_name profile_name) profile
              region ssm ec2_ic command agent_mode) as [[u|e] t];
    simpl; rewrite ?app_nil_r; split; reflexivity.
Qed.

Lemma no_side_effect_no_spawn (t : list event) :
  existsb side_effecting t = false -> spawned t = [].
Proof.
  induction t as [|e t IH]; [reflexivity |].
  destruct e as [[]| |]; simpl; intro H;
    first [discriminate H | exact (IH H)].
Qed.

Lemma no_side_effect_no_session (t : list event) :
  existsb side_effecting t = false -> sessions_entered t = [].
Proof.
  induction t as [|e t IH]; [reflexivity |].
  destruct e as [[]| |]; simpl; intro H;
    first [discriminate H | exact (IH H)].
Qed.

(** X1: [ssh] spawns at most one process, the program [ssh], and only
    with the key, the trust grant and the session all acquired and none of
    them released yet: a run spawns nothing, or its trace is a part without
    a spawn whose acquisitions are the three in order, then the spawn, then
    the three releases in reverse order. *)
Theorem ssh_spawns_inside_all_scopes {Config Key : Type}
    (K : Constants) (env : Env Config Key) (config : Config)
    (instance_name user : string) (port : Z) (key_type : string)
    (key_size : Z) (profile_name : option string) (region_name : string)
    (command : option (list string)) (agent_mode : bool) :
  spawned
    (snd (ssh K env config instance_name user port key_type key_size
            profile_name region_name command agent_mode)) = []
  \/ exists before args,
       snd (ssh K env config instance_name user port key_type key_size
              profile_name region_name command agent_mode) =
       (before ++ Called (Execute "ssh" args)
               :: map Released (rev acquisition_order))%list
       /\ spawned before = []
       /\ lifecycle before = map Acquired acquisition_order.
Proof.
  destruct (ssh_run_inv K env config instance_name user port key_type
              key_size profile_name region_name command agent_mode)
    as [[Hq _] | (instance & profile & region & ssm & ec2 & ec2_ic
                  & instance_id & details & az & _ & _ & _ & _ & _ & _ & _
                  & Ht & _)].
  - left. now apply no_side_effect_no_spawn.
  - rewrite Ht. erewrite ssh_scopes_trace by reflexivity.
    destruct (SshKey_enter env key_type key_size _ agent_mode)
      as [ssh_key|e]; [| left; reflexivity].
    destruct (SshKeyUploader_enter env instance_id az user ssh_key ec2_ic)
      as [u|e]; [| left; reflexivity].
    destruct (BaseSession_enter env _) as [ssh_session|e];
      [| left; reflexivity].
    rewrite SshSession_open_run.
    destruct (_build_ssh_command K ssh_session) as [[|c args]|e] eqn:Hb;
      [left; reflexivity | | left; reflexivity].
    destruct (build_ssh_command_head K ssh_session _ Hb) as (args' & E).
    injection E as -> <-.
    right.
    exists [ Called (FetchInstanceDetails instance_name profile_name
                       region_name);
             Called (GetAwsClient "ssm" region profile);
             Called (GetAwsResource "ec2" region profile);
             Called (GetAwsClient "ec2-instance-connect" region profile);
             Called (QueryInstance instance);
             Called (GetInstanceDetails instance_id);
             Called (SshKeyEnter key_type key_size
                       (ssh_key_path K instance_id region_name profile_name)
                       agent_mode);
             Acquired RSshKey;
             Called (SshKeyUploaderEnter instance_id az user);
             Acquired RSshKeyUploader;
             Called (SshSessionEnter
                       {| _instance_id := instance_id;
                          _region_name := region;
                          _profile_name := match profile with
                                           | Some p => p
                                           | None => EmptyString
                                           end;
                          _ssm := Some ssm;
                          _port := port;
                          _user := user;
                          _command := command;
                          _key_path :=
                            ssh_key_path K instance_id region_name
                              profile_name;
                          _agent_mode := agent_mode;
                          _ssh_cmd := None;
                          _session_parameters :=
                            PDict [ ("Target", PStr instance_id);
                                    ("DocumentName",
                                     PStr "AWS-StartSSHSession");
                                    ("Parameters",
                                     PDict [("portNumber",
                                             PList [PStr (py_str_int port)])]) ];
                          _response := PNone |});
             Acquired RSshSession ], args.
    repeat split.
Qed.

(** X2: the session [ssh] asks to enter is made of the values the run
    established: the instance id found, the region and profile the
    configuration resolved to (no profile stored as the empty string), the
    client built for service [ssm], and as identity file the very path at
    which key material was asked for; it is not entered yet (no response,
    no stored command).  A run asks to enter at most one session. *)
Theorem ssh_session_matches_run {Config Key : Type}
    (K : Constants) (env : Env Config Key) (config : Config)
    (instance_name user : string) (port : Z) (key_type : string)
    (key_size : Z) (profile_name : option string) (region_name : string)
    (command : option (list string)) (agent_mode : bool) :
  sessions_entered
    (snd (ssh K env config instance_name user port key_type key_size
            profile_name region_name command agent_mode)) = []
  \/ exists instance profile region ssm ec2 instance_id session,
       fetch_instance_details_from_config env config instance_name
         profile_name region_name = Ok (instance, profile, region)
       /\ get_aws_client env "ssm" region profile = Ok ssm
       /\ query_instance env instance ec2 = Ok (Some instance_id)
       /\ sessions_entered
            (snd (ssh K env config instance_name user port key_type key_size
                    profile_name region_name command agent_mode)) = [session]
       /\ key_paths
            (snd (ssh K env config instance_name user port key_type key_size
                    profile_name region_name command agent_mode)) =
          [_key_path session]
       /\ _instance_id session = instance_id
       /\ _region_name session = region
       /\ _profile_name session = match profile with
                                  | Some p => p
                                  | None => EmptyString
                                  end
       /\ _ssm session = Some ssm
       /\ _port session = port /\ _user session = user
       /\ _command session = command /\ _agent_mode session = agent_mode
       /\ _response session = PNone /\ _ssh_cmd session = None.
Proof.
  destruct (ssh_run_inv K env config instance_name user port key_type
              key_size profile_name region_name command agent_mode)
    as [[Hq _] | (instance & profile & region & ssm & ec2 & ec2_ic
                  & instance_id & details & az & Hf & Hs & _ & _ & Hq & _ & _
                  & Ht & _)].
  - left. now apply no_side_effect_no_session.
  - rewrite Ht. erewrite ssh_scopes_trace by reflexivity.
    destruct (SshKey_enter env key_type key_size _ agent_mode)
      as [ssh_key|e]; [| left; reflexivity].
    destruct (SshKeyUploader_enter env instance_id az user ssh_key ec2_ic)
      as [u|e]; [| left; reflexivity].
    right. exists instance, profile, region, ssm, ec2, instance_id.
    eexists. split; [exact Hf |]. split; [exact Hs |]. split; [exact Hq |].
    destruct (BaseSession_enter env _) as [ssh_session|e].
    + rewrite SshSession_open_run.
      destruct (_build_ssh_command K ssh_session) as [[|c args]|e];
        repeat split.
    + repeat split.
Qed.

(** ** Error paths of [ssh] *)

Ltac resolve_with Hf Hs He Hi Hq Hd Hz :=
  unfold ssh, bind, ext;
  rewrite Hf; cbv beta iota zeta; rewrite Hs; cbv beta iota zeta;
  rewrite He; cbv beta iota zeta; rewrite Hi; cbv beta iota zeta;
  rewrite Hq; cbv beta iota zeta; rewrite Hd; cbv beta iota zeta;
  rewrite Hz; cbv beta iota zeta.

(** X3: when the trust grant cannot be installed, the key is released
    with that error passed to its [__exit__], no session is entered and no
    process is spawned; the error reaches the caller unless the key's
    [__exit__] returns a true value, in which case [ssh] returns [None]. *)
Theorem ssh_trust_failure_releases_key {Config Key : Type}
    (K : Constants) (env : Env Config Key) (config : Config)
    (instance_name user : string) (port : Z) (key_type : string)
    (key_size : Z) (profile_name : option string) (region_name : string)
    (command : option (list string)) (agent_mode : bool)
    (instance : string) (profile : option string) (region : string)
    (ssm ec2_ic : aws_client) (ec2 : aws_resource) (instance_id : string)
    (details : list (string * string)) (az : string) (key : Key)
    (e : exn) (suppress : bool) :
  fetch_instance_details_from_config env config instance_name profile_name
    region_name = Ok (instance, profile, region) ->
  get_aws_client env "ssm" region profile = Ok ssm ->
  get_aws_resource env "ec2" region profile = Ok ec2 ->
  get_aws_client env "ec2-instance-connect" region profile = Ok ec2_ic ->
  query_instance env instance ec2 = Ok (Some instance_id) ->
  get_instance_details env instance_id ec2 = Ok details ->
  dict_get details "availability_zone" = Ok az ->
  SshKey_enter env key_type key_size
    (ssh_key_path K instance_id region_name profile_name) agent_mode = Ok key ->
  SshKeyUploader_enter env instance_id az user key ec2_ic = Raise e ->
  SshKey_exit env key (Some e) = Ok suppress ->
  ssh K env config instance_name user port key_type key_size profile_name
    region_name command agent_mode =
  (if suppress then Ok PNone else Raise e,
   [ Called (FetchInstanceDetails instance_name profile_name region_name);
     Called (GetAwsClient "ssm" region profile);
     Called (GetAwsResource "ec2" region profile);
     Called (GetAwsClient "ec2-instance-connect" region profile);
     Called (QueryInstance instance);
     Called (GetInstanceDetails instance_id);
     Called (SshKeyEnter key_type key_size
               (ssh_key_path K instance_id region_name profile_name)
               agent_mode);
     Acquired RSshKey;
     Called (SshKeyUploaderEnter instance_id az user);
     Released RSshKey ]).
Proof.
  intros Hf Hs He Hi Hq Hd Hz Hk Hu Hx.
  resolve_with Hf Hs He Hi Hq Hd Hz.
  unfold ssh_scopes, with_, ext. rewrite Hk. cbv beta iota zeta.
  rewrite Hu. cbv beta iota zeta. rewrite Hx.
  destruct suppress; reflexivity.
Qed.

Lemma ssh_trust_failure_releases_key_witness :
  SshKeyUploader_enter
    (scripted_env unresolved (Some "i-0123456789abcdef0") true false true
       (Ok (PInt 0)))
    "i-0123456789abcdef0" "us-east-1a" "ec2-user" tt
    (mkClient "ec2-instance-connect"
       "https://ec2-instance-connect.us-east-1.amazonaws.com") =
  Raise (mkExn "TrustInstallError" "rejected")
  /\ fst (ssh sample_constants
            (scripted_env unresolved (Some "i-0123456789abcdef0") true false
               true (Ok (PInt 0)))
            tt "web" "ec2-user" 22 "rsa" 4096 (Some "default") "us-east-1"
            None false) =
     Raise (mkExn "TrustInstallError" "rejected").
Proof.
  split; [reflexivity |].
  erewrite (ssh_trust_failure_releases_key sample_constants
              (scripted_env unresolved (Some "i-0123456789abcdef0") true
                 false true (Ok (PInt 0)))).
  all: cycle 1.
  all: reflexivity.
Defined.

(** X4: when the process cannot be run ([execute] raises) and the three
    [__exit__] calls return a false value, the error reaches the caller
    after the session, the trust grant and the key were released, in that
    order, each having been handed the error. *)
Theorem ssh_launch_failure_unwinds {Config Key : Type}
    (K : Constants) (env : Env Config Key) (config : Config)
    (instance_name user : string) (port : Z) (key_type : string)
    (key_size : Z) (profile_name : option string) (region_name : string)
    (command : option (list string)) (agent_mode : bool)
    (instance : string) (profile : option string) (region : string)
    (ssm ec2_ic : aws_client) (ec2 : aws_resource) (instance_id : string)
    (details : list (string * string)) (az : string) (key : Key)
    (session0 session : SshSession) (cmd : string) (args : list string)
    (e : exn) :
  fetch_instance_details_from_config env config instance_name profile_name
    region_name = Ok (instance, profile, region) ->
  get_aws_client env "ssm" region profile = Ok ssm ->
  get_aws_resource env "ec2" region profile = Ok ec2 ->
  get_aws_client env "ec2-instance-connect" region profile = Ok ec2_ic ->
  query_instance env instance ec2 = Ok (Some instance_id) ->
  get_instance_details env instance_id ec2 = Ok details ->
  dict_get details "availability_zone" = Ok az ->
  SshKey_enter env key_type key_size
    (ssh_key_path K instance_id region_name profile_name) agent_mode = Ok key ->
  SshKeyUploader_enter env instance_id az user key ec2_ic = Ok tt ->
  fst (SshSession_init instance_id
         (ssh_key_path K instance_id region_name profile_name) (Some ssm)
         region profile port user command agent_mode) = Ok session0 ->
  BaseSession_enter env session0 = Ok session ->
  _build_ssh_command K session = Ok (cmd :: args) ->
  execute env cmd args = Raise e ->
  BaseSession_exit env session (Some e) = Ok false ->
  SshKeyUploader_exit env (Some e) = Ok false ->
  SshKey_exit env key (Some e) = Ok false ->
  fst (ssh K env config instance_name user port key_type key_size
         profile_name region_name command agent_mode) = Raise e
  /\ lifecycle
       (snd (ssh K env config instance_name user port key_type key_size
               profile_name region_name command agent_mode)) =
     [ Acquired RSshKey; Acquired RSshKeyUploader; Acquired RSshSession;
       Released RSshSession; Released RSshKeyUploader; Released RSshKey ]
  /\ spawned
       (snd (ssh K env config instance_name user port key_type key_size
               profile_name region_name command agent_mode)) = [(cmd, args)].
Proof.
  intros Hf Hs He Hi Hq Hd Hz Hk Hu H0 Hn Hb Hx X1 X2 X3.
  simpl in H0. injection H0 as <-.
  resolve_with Hf Hs He Hi Hq Hd Hz.
  unfold ssh_scopes, with_, SshSession_init, bind, ext, ret.
  rewrite Hk. cbv beta iota zeta. rewrite Hu. cbv beta iota zeta.
  rewrite Hn. cbv beta iota zeta.
  rewrite SshSession_open_run, Hb, Hx. cbv beta iota zeta.
  rewrite X1, X2, X3. repeat split.
Qed.

Lemma ssh_launch_failure_unwinds_witness :
  execute
    (scripted_env unresolved (Some "i-0123456789abcdef0") true true true
       (Raise (ValueError "ssh cannot be found")))
    "ssh" [] = Raise (ValueError "ssh cannot be found")
  /\ fst (ssh sample_constants
            (scripted_env unresolved (Some "i-0123456789abcdef0") true true
               true (Raise (ValueError "ssh cannot be found")))
            tt "web" "ec2-user" 22 "rsa" 4096 (Some "default") "us-east-1"
            None false) = Raise (ValueError "ssh cannot be found").
Proof.
  split; [reflexivity |].
  eapply proj1.
  eapply (ssh_launch_failure_unwinds sample_constants
            (scripted_env unresolved (Some "i-0123456789abcdef0") true true
               true (Raise (ValueError "ssh cannot be found"))));
    reflexivity.
Defined.

Lemma with_exit_raises {A} (r : resource) (enter : M A)
    (exit_ : A -> option exn -> result bool) (body : A -> M unit)
    (a : A) (t : list event) (e' : exn) :
  enter = (Ok a, t) ->
  (forall pending, exit_ a pending = Raise e') ->
  fst (with_ r enter exit_ body) = Raise e'.
Proof.
  intros He Hx. unfold with_. rewrite He.
  destruct (body a) as [rb tb]. simpl. rewrite Hx. reflexivity.
Qed.

(** X5: once the key is acquired, an error raised by the key's
    [__exit__] is what [ssh] raises, whatever happened inside the scope:
    a failing cleanup replaces the error of a failed step and turns a
    finished session into a failure. *)
Theorem ssh_key_exit_error_replaces_outcome {Config Key : Type}
    (K : Constants) (env : Env Config Key) (config : Config)
    (instance_name user : string) (port : Z) (key_type : string)
    (key_size : Z) (profile_name : option string) (region_name : string)
    (command : option (list string)) (agent_mode : bool)
    (instance : string) (profile : option string) (region : string)
    (ssm ec2_ic : aws_client) (ec2 : aws_resource) (instance_id : string)
    (details : list (string * string)) (az : string) (key : Key)
    (e' : exn) :
  fetch_instance_details_from_config env config instance_name profile_name
    region_name = Ok (instance, profile, region) ->
  get_aws_client env "ssm" region profile = Ok ssm ->
  get_aws_resource env "ec2" region profile = Ok ec2 ->
  get_aws_client env "ec2-instance-connect" region profile = Ok ec2_ic ->
  query_instance env instance ec2 = Ok (Some instance_id) ->
  get_instance_details env instance_id ec2 = Ok details ->
  dict_get details "availability_zone" = Ok az ->
  SshKey_enter env key_type key_size
    (ssh_key_path K instance_id region_name profile_name) agent_mode = Ok key ->
  (forall pending, SshKey_exit env key pending = Raise e') ->
  fst (ssh K env config instance_name user port key_type key_size
         profile_name region_name command agent_mode) = Raise e'.
Proof.
  intros Hf Hs He Hi Hq Hd Hz Hk Hx.
  resolve_with Hf Hs He Hi Hq Hd Hz.
  assert (Hsc : fst (ssh_scopes K env instance_id az user port key_type
                       key_size
                       (ssh_key_path K instance_id region_name profile_name)
                       profile region ssm ec2_ic command agent_mode)
                = Raise e').
  { unfold ssh_scopes. apply with_exit_raises with (a := key) (t :=
      [Called (SshKeyEnter key_type key_size
                 (ssh_key_path K instance_id region_name profile_name)
                 agent_mode)]).
    - unfold ext. rewrite Hk. reflexivity.
    - exact Hx. }
  destruct (ssh_scopes K env instance_id az user port key_type key_size
              (ssh_key_path K instance_id region_name profile_name) profile
              region ssm ec2_ic command agent_mode) as [[u|e] t];
    simpl in Hsc; [discriminate Hsc |].
  injection Hsc as ->. reflexivity.
Qed.

Lemma ssh_key_exit_error_replaces_outcome_witness :
  SshKey_exit
    (with_key_exit exit_255_env (Raise (mkExn "OSError" "cannot remove key")))
    tt None = Raise (mkExn "OSError" "cannot remove key")
  /\ fst (ssh sample_constants
            (with_key_exit exit_255_env
               (Raise (mkExn "OSError" "cannot remove key")))
            tt "web" "ec2-user" 22 "rsa" 4096 (Some "default") "us-east-1"
            None false) = Raise (mkExn "OSError" "cannot remove key").
Proof.
  split; [reflexivity |].
  eapply (ssh_key_exit_error_replaces_outcome sample_constants
            (with_key_exit exit_255_env
               (Raise (mkExn "OSError" "cannot remove key"))));
    reflexivity.
Defined.

Lemma dict_get_missing (d : list (string * string)) (key : string) :
  (forall v, ~ In (key, v) d) ->
  dict_get d key = Raise (KeyError (str1 squote ++ key ++ str1 squote)).
Proof.
  induction d as [|[k v] d IH]; intro H; [reflexivity |].
  simpl. destruct (String.eqb k key) eqn:E.
  - apply String.eqb_eq in E. subst k. exfalso. apply (H v). left. reflexivity.
  - apply IH. intros v' Hin. apply (H v'). right. exact Hin.
Qed.

(** X6: when the details of the instance found carry no availability
    zone, [ssh] raises the [KeyError] of the failed lookup and has by then
    asked for no key, installed no trust, entered no session and spawned
    nothing. *)
Theorem ssh_missing_availability_zone {Config Key : Type}
    (K : Constants) (env : Env Config Key) (config : Config)
    (instance_name user : string) (port : Z) (key_type : string)
    (key_size : Z) (profile_name : option string) (region_name : string)
    (command : option (list string)) (agent_mode : bool)
    (instance : string) (profile : option string) (region : string)
    (ssm ec2_ic : aws_client) (ec2 : aws_resource) (instance_id : string)
    (details : list (string * string)) :
  fetch_instance_details_from_config env config instance_name profile_name
    region_name = Ok (instance, profile, region) ->
  get_aws_client env "ssm" region profile = Ok ssm ->
  get_aws_resource env "ec2" region profile = Ok ec2 ->
  get_aws_client env "ec2-instance-connect" region profile = Ok ec2_ic ->
  query_instance env instance ec2 = Ok (Some instance_id) ->
  get_instance_details env instance_id ec2 = Ok details ->
  (forall az, ~ In ("availability_zone", az) details) ->
  fst (ssh K env config instance_name user port key_type key_size
         profile_name region_name command agent_mode) =
    Raise (KeyError "'availability_zone'")
  /\ existsb side_effecting
       (snd (ssh K env config instance_name user port key_type key_size
               profile_name region_name command agent_mode)) = false.
Proof.
  intros Hf Hs He Hi Hq Hd Hz.
  apply dict_get_missing in Hz.
  resolve_with Hf Hs He Hi Hq Hd Hz. split; reflexivity.
Qed.

Lemma ssh_missing_availability_zone_witness :
  (forall az,
      ~ In ("availability_zone", az) [("instance_id", "i-0123456789abcdef0")])
  /\ fst (ssh sample_constants
            (with_details exit_255_env
               [("instance_id", "i-0123456789abcdef0")])
            tt "web" "ec2-user" 22 "rsa" 4096 (Some "default") "us-east-1"
            None false) = Raise (KeyError "'availability_zone'").
Proof.
  assert (H : forall az,
             ~ In ("availability_zone", az)
                  [("instance_id", "i-0123456789abcdef0")]).
  { intros az [E | []]. discriminate E. }
  split; [exact H |].
  eapply proj1.
  eapply (ssh_missing_availability_zone sample_constants
            (with_details exit_255_env
               [("instance_id", "i-0123456789abcdef0")]));
    first [reflexivity | exact H].
Defined.

(** ** [SshSession.open] *)

(** X7: whenever the command builds, [open] spawns exactly one process,
    the program [ssh] with the rest of the command as its arguments, never
    fails on an empty command, and ends as [execute] ends: with its value,
    the command then being stored on the session, or with its error. *)
Theorem open_spawns_ssh_once {Config Key : Type} (K : Constants)
    (env : Env Config Key) (self : SshSession) (cmd : list string) :
  _build_ssh_command K self = Ok cmd ->
  exists args,
    cmd = "ssh" :: args
    /\ snd (SshSession_open K env self) = [Called (Execute "ssh" args)]
    /\ fst (SshSession_open K env self) =
       match execute env "ssh" args with
       | Ok v => Ok (with_ssh_cmd self cmd, v)
       | Raise e => Raise e
       end.
Proof.
  intro H. destruct (build_ssh_command_head K self cmd H) as (args & ->).
  exists args. rewrite SshSession_open_run, H. repeat split.
Qed.

Lemma open_spawns_ssh_once_witness :
  _build_ssh_command sample_constants sample_session = Ok sample_command
  /\ exists args,
       sample_command = "ssh" :: args
       /\ snd (SshSession_open sample_constants exit_255_env sample_session) =
          [Called (Execute "ssh" args)]
       /\ fst (SshSession_open sample_constants exit_255_env sample_session) =
          match execute exit_255_env "ssh" args with
          | Ok v => Ok (with_ssh_cmd sample_session sample_command, v)
          | Raise e => Raise e
          end.
Proof.
  split; [reflexivity |].
  apply (open_spawns_ssh_once sample_constants exit_255_env sample_session
           sample_command).
  reflexivity.
Defined.

(** X8: after [open] has returned, the session carries the command it
    ran, and building again gives that same command: a second [open]
    spawns the same process. *)
Theorem open_twice_same_command {Config Key : Type} (K : Constants)
    (env : Env Config Key) (self self' : SshSession) (v : pyvalue) :
  fst (SshSession_open K env self) = Ok (self', v) ->
  _build_ssh_command K self' = _build_ssh_command K self
  /\ (exists cmd,
        _build_ssh_command K self = Ok cmd /\ _ssh_cmd self' = Some cmd)
  /\ snd (SshSession_open K env self') = snd (SshSession_open K env self).
Proof.
  rewrite !SshSession_open_run.
  destruct (_build_ssh_command K self) as [[|c args]|e] eqn:Hb;
    simpl; try discriminate.
  destruct (execute env c args) as [v'|e]; [| discriminate].
  intro H. injection H as <- _.
  assert (Hb' : _build_ssh_command K (with_ssh_cmd self (c :: args)) =
                Ok (c :: args)) by exact Hb.
  rewrite Hb'. split; [reflexivity |]. split; [| reflexivity].
  exists (c :: args). split; reflexivity.
Qed.

Lemma open_twice_same_command_witness :
  fst (SshSession_open sample_constants exit_255_env sample_session) =
  Ok (with_ssh_cmd sample_session sample_command, PInt 255)
  /\ _build_ssh_command sample_constants
       (with_ssh_cmd sample_session sample_command) =
     _build_ssh_command sample_constants sample_session.
Proof.
  split; [reflexivity |].
  eapply proj1.
  apply (open_twice_same_command sample_constants exit_255_env sample_session
           (with_ssh_cmd sample_session sample_command) (PInt 255)).
  reflexivity.
Defined.

(** X9: a session without an [ssm] client (the default of the
    constructor) cannot build its command: building raises an
    [AttributeError], and [open] raises it without spawning anything. *)
Theorem no_ssm_client_no_command {Config Key : Type} (K : Constants)
    (env : Env Config Key) (self : SshSession) :
  _ssm self = None ->
  exists msg,
    _build_ssh_command K self = Raise (AttributeError msg)
    /\ SshSession_open K env self = (Raise (AttributeError msg), []).
Proof.
  intro H. rewrite SshSession_open_run. unfold _build_ssh_command.
  rewrite H. eexists. split; reflexivity.
Qed.

Lemma no_ssm_client_no_command_witness :
  exists self,
    SshSession_init "i-0123456789abcdef0" "/home/op/.aws-gate/k" None
      "us-east-1" (Some "default") 22 "ec2-user" None false = (Ok self, [])
    /\ exists msg,
         _build_ssh_command sample_constants self = Raise (AttributeError msg)
         /\ SshSession_open sample_constants exit_255_env self =
            (Raise (AttributeError msg), []).
Proof.
  eexists. split; [reflexivity |].
  apply (no_ssm_client_no_command sample_constants exit_255_env).
  reflexivity.
Defined.

(** ** More of the command line *)

Lemma option_values_fixed (u p v x y z : string) (rest : list string) :
  let argv :=
    "ssh" :: "-l" :: u :: "-p" :: p :: "-F" :: "/dev/null" :: v
    :: "-o" :: ("IdentitiesOnly=" ++ x)
    :: "-o" :: ("IdentityFile=" ++ y)
    :: "-o" :: "UserKnownHostsFile=/dev/null"
    :: "-o" :: "StrictHostKeyChecking=no"
    :: "-o" :: ("ProxyCommand=" ++ z) :: rest in
  ssh_option_value "IdentityFile" argv = Some y
  /\ ssh_option_value "UserKnownHostsFile" argv = Some "/dev/null"
  /\ ssh_option_value "StrictHostKeyChecking" argv = Some "no".
Proof.
  simpl. destruct (String.eqb u "-o"), (String.eqb p "-o"),
    (String.eqb v "-o"); repeat split.
Qed.

(** X10: in every built invocation the identity file is the key path of
    the session, no known-hosts file is used and host-key checking is off,
    whatever the user name, the port, the key path or the remote command
    contain. *)
Theorem identity_and_host_key_options (K : Constants) (self : SshSession)
    (cmd : list string) :
  _build_ssh_command K self = Ok cmd ->
  ssh_option_value "IdentityFile" cmd = Some (_key_path self)
  /\ ssh_option_value "UserKnownHostsFile" cmd = Some "/dev/null"
  /\ ssh_option_value "StrictHostKeyChecking" cmd = Some "no".
Proof.
  intro H. destruct (build_ssh_command_ok K self cmd H) as (r & c & Hr & Hs).
  replace cmd with (match _build_ssh_command K self with
                    | Ok argv => argv
                    | Raise _ => []
                    end) by (rewrite H; reflexivity).
  rewrite (build_ssh_command_eq K self r c Hr Hs). cbv beta iota.
  apply option_values_fixed.
Qed.

Lemma identity_and_host_key_options_witness :
  _build_ssh_command sample_constants sample_session = Ok sample_command
  /\ ssh_option_value "IdentityFile" sample_command =
     Some "/home/op/.aws-gate/i-0123456789abcdef0.us-east-1.default"
  /\ ssh_option_value "UserKnownHostsFile" sample_command = Some "/dev/null"
  /\ ssh_option_value "StrictHostKeyChecking" sample_command = Some "no".
Proof.
  split; [reflexivity |].
  apply (identity_and_host_key_options sample_constants sample_session
           sample_command).
  reflexivity.
Defined.

(** X11: the ProxyCommand string determines its seven arguments: two
    sessions whose proxy commands are the same text have the same plugin
    path, serialized response, region, profile, serialized parameters and
    endpoint. *)
Theorem proxy_command_determines_arguments (K K' : Constants)
    (self self' : SshSession) (response response' : pyvalue)
    (ssm ssm' : aws_client) :
  proxy_command K self response ssm = proxy_command K' self' response' ssm' ->
  PLUGIN_INSTALL_PATH K = PLUGIN_INSTALL_PATH K'
  /\ json_dumps response = json_dumps response'
  /\ _region_name self = _region_name self'
  /\ _profile_name self = _profile_name self'
  /\ json_dumps (_session_parameters self) =
     json_dumps (_session_parameters self')
  /\ meta_endpoint_url ssm = meta_endpoint_url ssm'.
Proof.
  intro H. apply (f_equal sh_words) in H. unfold proxy_command in H.
  rewrite !sh_words_join_quote in H. unfold proxy_command_args in H.
  injection H as H1 H2 H3 H4 H5 H6. repeat split; assumption.
Qed.

Lemma proxy_command_determines_arguments_witness :
  proxy_command sample_constants sample_session sample_response
    (mkClient "ssm" "https://ssm.us-east-1.amazonaws.com") =
  proxy_command sample_constants (with_ssh_cmd sample_session [])
    sample_response (mkClient "other" "https://ssm.us-east-1.amazonaws.com")
  /\ _region_name sample_session = _region_name (with_ssh_cmd sample_session []).
Proof.
  split; [reflexivity |].
  eapply proj1. eapply proj2. eapply proj2.
  apply (proxy_command_determines_arguments sample_constants sample_constants
           sample_session (with_ssh_cmd sample_session []) sample_response
           sample_response
           (mkClient "ssm" "https://ssm.us-east-1.amazonaws.com")
           (mkClient "other" "https://ssm.us-east-1.amazonaws.com")).
  reflexivity.
Defined.

(** ** The serialized session descriptor *)

Lemma json_escape_char_plain (c : ascii) :
  json_plain c = true -> json_escape_char c = str1 c.
Proof.
  destruct c as [[] [] [] [] [] [] [] []]; vm_compute; intro H;
    first [discriminate H | reflexivity].
Qed.

Lemma json_escape_plain (s : string) :
  string_forall json_plain s = true -> json_escape s = s.
Proof.
  induction s as [|c s IH]; [reflexivity |].
  simpl. intro H. apply andb_true_iff in H. destruct H as [Hc Hs].
  rewrite (json_escape_char_plain c Hc), (IH Hs). reflexivity.
Qed.

Lemma string_of_uint_plain (d : Decimal.uint) :
  string_forall json_plain (NilEmpty.string_of_uint d) = true.
Proof. induction d; simpl; [reflexivity | exact IHd ..]. Qed.

Lemma py_str_int_plain (n : Z) :
  string_forall json_plain (py_str_int n) = true.
Proof.
  unfold py_str_int, NilZero.string_of_int, NilZero.string_of_uint.
  destruct (Z.to_int n) as [d|d]; destruct d;
    first [reflexivity | apply (string_of_uint_plain (Decimal.D0 d))
          | apply (string_of_uint_plain (Decimal.D1 d))
          | apply (string_of_uint_plain (Decimal.D2 d))
          | apply (string_of_uint_plain (Decimal.D3 d))
          | apply (string_of_uint_plain (Decimal.D4 d))
          | apply (string_of_uint_plain (Decimal.D5 d))
          | apply (string_of_uint_plain (Decimal.D6 d))
          | apply (string_of_uint_plain (Decimal.D7 d))
          | apply (string_of_uint_plain (Decimal.D8 d))
          | apply (string_of_uint_plain (Decimal.D9 d)) ].
Qed.

(** X12: for an instance id of printable characters other than the double
    quote and the backslash, the serialized descriptor handed to the plugin
    is, character for character, the object with the keys Target,
    DocumentName and Parameters in that order, the port written as a
    decimal string inside a one-element list. *)
Theorem session_parameters_json_text (instance_id key_path : string)
    (ssm : option aws_client) (region_name : string)
    (profile_name : option string) (port : Z) (user : string)
    (command : option (list string)) (agent_mode : bool)
    (self : SshSession) :
  string_forall json_plain instance_id = true ->
  fst (SshSession_init instance_id key_path ssm region_name profile_name
         port user command agent_mode) = Ok self ->
  json_dumps (_session_parameters self) =
  "{" ++ in_dquotes "Target" ++ ": " ++ in_dquotes instance_id ++ ", "
  ++ in_dquotes "DocumentName" ++ ": " ++ in_dquotes "AWS-StartSSHSession"
  ++ ", " ++ in_dquotes "Parameters" ++ ": {" ++ in_dquotes "portNumber"
  ++ ": [" ++ in_dquotes (py_str_int port) ++ "]}}".
Proof.
  intros Hi Hs. simpl in Hs. injection Hs as <-.
  cbn [_session_parameters json_dumps]. unfold json_string.
  rewrite (json_escape_plain instance_id Hi),
    (json_escape_plain (py_str_int port) (py_str_int_plain port)).
  unfold in_dquotes, str1. cbn [json_escape json_escape_char].
  repeat (rewrite ?append_assoc; cbn [append]).
  reflexivity.
Qed.

Lemma session_parameters_json_text_witness :
  string_forall json_plain "i-0123456789abcdef0" = true
  /\ json_dumps
       (PDict [ ("Target", PStr "i-0123456789abcdef0");
                ("DocumentName", PStr "AWS-StartSSHSession");
                ("Parameters", PDict [("portNumber", PList [PStr "22"])]) ]) =
     "{" ++ in_dquotes "Target" ++ ": " ++ in_dquotes "i-0123456789abcdef0"
     ++ ", " ++ in_dquotes "DocumentName" ++ ": "
     ++ in_dquotes "AWS-StartSSHSession" ++ ", " ++ in_dquotes "Parameters"
     ++ ": {" ++ in_dquotes "portNumber" ++ ": [" ++ in_dquotes "22" ++ "]}}".
Proof.
  split; [reflexivity |].
  apply (session_parameters_json_text "i-0123456789abcdef0"
           "/home/op/.aws-gate/k" None "us-east-1" None 22 "ec2-user" None
           false
           {| _instance_id := "i-0123456789abcdef0";
              _region_name := "us-east-1";
              _profile_name := EmptyString;
              _ssm := None;
              _port := 22;
              _user := "ec2-user";
              _command := None;
              _key_path := "/home/op/.aws-gate/k";
              _agent_mode := false;
              _ssh_cmd := None;
              _session_parameters :=
                PDict [ ("Target", PStr "i-0123456789abcdef0");
                        ("DocumentName", PStr "AWS-StartSSHSession");
                        ("Parameters",
                         PDict [("portNumber", PList [PStr "22"])]) ];
              _response := PNone |});
    reflexivity.
Defined.

(** ** What [ssh] returns *)

(** X13: whenever [ssh] returns, by a finished session or because an
    [__exit__] swallowed an error, the value is [None]; and it returns only
    after asking for key material. *)
Theorem ssh_returns_only_none {Config Key : Type}
    (K : Constants) (env : Env Config Key) (config : Config)
    (instance_name user : string) (port : Z) (key_type : string)
    (key_size : Z) (profile_name : option string) (region_name : string)
    (command : option (list string)) (agent_mode : bool) (v : pyvalue) :
  fst (ssh K env config instance_name user port key_type key_size
         profile_name region_name command agent_mode) = Ok v ->
  v = PNone
  /\ exists key_path,
       key_paths
         (snd (ssh K env config instance_name user port key_type key_size
                 profile_name region_name command agent_mode)) = [key_path].
Proof.
  intro H.
  destruct (ssh_run_inv K env config instance_name user port key_type
              key_size profile_name region_name command agent_mode)
    as [[_ [e He]] | (instance & profile & region & ssm & ec2 & ec2_ic
                      & instance_id & details & az & _ & _ & _ & _ & _ & _
                      & _ & Ht & Hr)].
  - rewrite He in H. discriminate H.
  - rewrite Hr in H. split.
    + destruct (fst (ssh_scopes K env instance_id az user port key_type
                       key_size _ profile region ssm ec2_ic command
                       agent_mode)); [| discriminate H].
      injection H as <-. reflexivity.
    + rewrite Ht, key_paths_app, ssh_scopes_key_paths. eexists. reflexivity.
Qed.

Lemma ssh_returns_only_none_witness :
  fst (ssh sample_constants
         (scripted_env unresolved (Some "i-0123456789abcdef0") true true true
            (Ok (PStr "Linux")))
         tt "web" "ec2-user" 22 "rsa" 4096 (Some "default") "us-east-1"
         (Some ["uname"]) false) = Ok PNone
  /\ PNone = PNone.
Proof.
  split; [reflexivity |].
  eapply proj1.
  apply (ssh_returns_only_none sample_constants
           (scripted_env unresolved (Some "i-0123456789abcdef0") true true
              true (Ok (PStr "Linux")))
           tt "web" "ec2-user" 22 "rsa" 4096 (Some "default") "us-east-1"
           (Some ["uname"]) false PNone).
  reflexivity.
Defined.

(** ** Edge cases of the remote command, and the key handed to [ssh] *)

(** X14: an empty list as remote command is the same as no remote
    command: the two sessions build the same command line, with no [--]
    separator. *)
Theorem empty_command_same_as_none (K : Constants)
    (instance_id region_name profile_name : string)
    (ssm : option aws_client) (port : Z) (user key_path : string)
    (agent_mode : bool) (ssh_cmd : option (list string))
    (parameters : pyvalue) (response : pyvalue) :
  _build_ssh_command K
    (mkSshSession instance_id region_name profile_name ssm port user
       (Some []) key_path agent_mode ssh_cmd parameters response) =
  _build_ssh_command K
    (mkSshSession instance_id region_name profile_name ssm port user
       None key_path agent_mode ssh_cmd parameters response)
  /\ forall cmd,
       _build_ssh_command K
         (mkSshSession instance_id region_name profile_name ssm port user
            (Some []) key_path agent_mode ssh_cmd parameters response) =
       Ok cmd ->
       last cmd EmptyString = instance_id /\ length cmd = 19%nat.
Proof.
  split; [reflexivity |].
  intros cmd H.
  destruct (build_ssh_command_ok K _ cmd H) as (r & c & Hr & Hs).
  rewrite (build_ssh_command_eq K _ r c Hr Hs) in H.
  injection H as <-. split; reflexivity.
Qed.

Lemma build_identity_file (K : Constants) (self : SshSession)
    (cmd : list string) :
  _build_ssh_command K self = Ok cmd ->
  ssh_option_value "IdentityFile" cmd = Some (_key_path self).
Proof.
  intro H. destruct (build_ssh_command_ok K self cmd H) as (r & c & Hr & Hs).
  replace cmd with (match _build_ssh_command K self with
                    | Ok argv => argv
                    | Raise _ => []
                    end) by (rewrite H; reflexivity).
  rewrite (build_ssh_command_eq K self r c Hr Hs). cbv beta iota.
  apply option_values_fixed.
Qed.

(** X15: when entering the session leaves its key path as it is, the
    identity file on the command line of the process [ssh] spawns is the
    path at which the run asked for key material. *)
Theorem ssh_spawned_identity_file {Config Key : Type}
    (K : Constants) (env : Env Config Key) (config : Config)
    (instance_name user : string) (port : Z) (key_type : string)
    (key_size : Z) (profile_name : option string) (region_name : string)
    (command : option (list string)) (agent_mode : bool)
    (cmd : string) (args : list string) :
  (forall s s', BaseSession_enter env s = Ok s' -> _key_path s' = _key_path s) ->
  In (cmd, args)
     (spawned
        (snd (ssh K env config instance_name user port key_type key_size
                profile_name region_name command agent_mode))) ->
  exists key_path,
    key_paths
      (snd (ssh K env config instance_name user port key_type key_size
              profile_name region_name command agent_mode)) = [key_path]
    /\ ssh_option_value "IdentityFile" (cmd :: args) = Some key_path.
Proof.
  intros Hp Hin.
  destruct (ssh_run_inv K env config instance_name user port key_type
              key_size profile_name region_name command agent_mode)
    as [[Hq _] | (instance & profile & region & ssm & ec2 & ec2_ic
                  & instance_id & details & az & _ & _ & _ & _ & _ & _ & _
                  & Ht & _)].
  - rewrite (no_side_effect_no_spawn _ Hq) in Hin. contradiction.
  - exists (ssh_key_path K instance_id region_name profile_name).
    rewrite Ht in *. split.
    + rewrite key_paths_app, ssh_scopes_key_paths. reflexivity.
    + erewrite ssh_scopes_trace in Hin by reflexivity.
      destruct (SshKey_enter env key_type key_size _ agent_mode)
        as [ssh_key|e]; [| contradiction].
      destruct (SshKeyUploader_enter env instance_id az user ssh_key ec2_ic)
        as [u|e]; [| contradiction].
      destruct (BaseSession_enter env _) as [ssh_session|e] eqn:Hn;
        [| contradiction].
      rewrite SshSession_open_run in Hin.
      destruct (_build_ssh_command K ssh_session) as [[|c a]|e] eqn:Hb;
        try contradiction.
      destruct Hin as [Hin | []]. injection Hin as -> ->.
      rewrite (build_identity_file K ssh_session _ Hb), (Hp _ _ Hn).
      reflexivity.
Qed.

Lemma ssh_spawned_identity_file_witness :
  exists args key_path,
    In ("ssh", args)
       (spawned
          (snd (ssh sample_constants exit_255_env tt "web" "ec2-user" 22
                  "rsa" 4096 (Some "default") "us-east-1" None false)))
    /\ key_paths
         (snd (ssh sample_constants exit_255_env tt "web" "ec2-user" 22
                 "rsa" 4096 (Some "default") "us-east-1" None false)) =
       [key_path]
    /\ ssh_option_value "IdentityFile" ("ssh" :: args) = Some key_path.
Proof.
  assert (Hin : exists args,
             In ("ssh", args)
                (spawned
                   (snd (ssh sample_constants exit_255_env tt "web"
                           "ec2-user" 22 "rsa" 4096 (Some "default")
                           "us-east-1" None false))))
    by (eexists; vm_compute; left; reflexivity).
  destruct Hin as [args Hin].
  assert (Hp : forall s s',
             BaseSession_enter exit_255_env s = Ok s' ->
             _key_path s' = _key_path s)
    by (intros s s' H; injection H as <-; reflexivity).
  destruct (ssh_spawned_identity_file sample_constants exit_255_env tt "web"
              "ec2-user" 22 "rsa" 4096 (Some "default") "us-east-1" None
              false "ssh" args Hp Hin) as (key_path & H1 & H2).
  exists args, key_path. split; [exact Hin | split; [exact H1 | exact H2]].
Defined.

(** X16: when the configuration resolves the region and the profile of
    the call to themselves (no alias) and the profile is a string, the key
    path asked for is the gate directory, a slash, and instance id, region
    and profile of the session entered, joined by dots. *)
Theorem ssh_key_path_of_session_without_alias {Config Key : Type}
    (K : Constants) (env : Env Config Key) (config : Config)
    (instance_name user : string) (port : Z) (key_type : string)
    (key_size : Z) (profile_name : string) (region_name : string)
    (command : option (list string)) (agent_mode : bool)
    (instance : string) (session : SshSession) :
  fetch_instance_details_from_config env config instance_name
    (Some profile_name) region_name =
    Ok (instance, Some profile_name, region_name) ->
  In session
     (sessions_entered
        (snd (ssh K env config instance_name user port key_type key_size
                (Some profile_name) region_name command agent_mode))) ->
  key_paths
    (snd (ssh K env config instance_name user port key_type key_size
            (Some profile_name) region_name command agent_mode)) =
  [ DEFAULT_GATE_DIR K ++ "/" ++ _instance_id session ++ "."
    ++ _region_name session ++ "." ++ _profile_name session ].
Proof.
  intros Hf Hin.
  destruct (ssh_run_inv K env config instance_name user port key_type
              key_size (Some profile_name) region_name command agent_mode)
    as [[Hq _] | (instance' & profile & region & ssm & ec2 & ec2_ic
                  & instance_id & details & az & Hf' & _ & _ & _ & _ & _ & _
                  & Ht & _)].
  - rewrite (no_side_effect_no_session _ Hq) in Hin. contradiction.
  - rewrite Hf in Hf'. injection Hf' as <- <- <-.
    rewrite Ht in *. rewrite key_paths_app, ssh_scopes_key_paths.
    erewrite ssh_scopes_trace in Hin by reflexivity.
    destruct (SshKey_enter env key_type key_size _ agent_mode)
      as [ssh_key|e]; [| contradiction].
    destruct (SshKeyUploader_enter env instance_id az user ssh_key ec2_ic)
      as [u|e]; [| contradiction].
    assert (Hs : session =
                 {| _instance_id := instance_id;
                    _region_name := region_name;
                    _profile_name := profile_name;
                    _ssm := Some ssm;
                    _port := port;
                    _user := user;
                    _command := command;
                    _key_path :=
                      ssh_key_path K instance_id region_name
                        (Some profile_name);
                    _agent_mode := agent_mode;
                    _ssh_cmd := None;
                    _session_parameters :=
                      PDict [ ("Target", PStr instance_id);
                              ("DocumentName", PStr "AWS-StartSSHSession");
                              ("Parameters",
                               PDict [("portNumber",
                                       PList [PStr (py_str_int port)])]) ];
                    _response := PNone |}).
    { destruct (BaseSession_enter env _) as [ssh_session|e].
      - rewrite SshSession_open_run in Hin.
        destruct (_build_ssh_command K ssh_session) as [[|c a]|e];
          destruct Hin as [Hin | []]; symmetry; exact Hin.
      - destruct Hin as [Hin | []]. symmetry. exact Hin. }
    rewrite Hs. reflexivity.
Qed.

Lemma ssh_key_path_of_session_without_alias_witness :
  exists session,
    In session
       (sessions_entered
          (snd (ssh sample_constants exit_255_env tt "web" "ec2-user" 22
                  "rsa" 4096 (Some "default") "us-east-1" None false)))
    /\ _region_name session = "us-east-1"
    /\ _profile_name session = "default"
    /\ key_paths
         (snd (ssh sample_constants exit_255_env tt "web" "ec2-user" 22
                 "rsa" 4096 (Some "default") "us-east-1" None false)) =
       [ DEFAULT_GATE_DIR sample_constants ++ "/" ++ _instance_id session
         ++ "." ++ _region_name session ++ "." ++ _profile_name session ].
Proof.
  eexists. split; [left; reflexivity |].
  split; [reflexivity |]. split; [reflexivity |].
  apply (ssh_key_path_of_session_without_alias sample_constants exit_255_env
           tt "web" "ec2-user" 22 "rsa" 4096 "default" "us-east-1" None false
           "web").
  - reflexivity.
  - left. reflexivity.
Defined.
